(** * myshop: the shop's models and schema, and what their methods guarantee

    A shallow embedding of [myshop/models.py], of the part of
    [myshop/migrations/0001_initial.py] that declares the product tables, and
    of the one setting of [myshop/settings.py] the models read.

    Python objects are records, a table is the list of its rows, a keyword
    dictionary is a finite map, and a method that can raise returns a
    [result].  A method that reads the database takes it as an argument; a
    method that assigns to [self] returns the new [self]. *)

From Stdlib Require Import ZArith Lia.
From stdpp Require Import base option list sorting strings pretty gmap.

Local Open Scope string_scope.
Local Open Scope Z_scope.

(** ** Money *)

(** Python's [Decimal].  The money columns of the schema keep three decimal
    places ([MoneyField(decimal_places=3)]), so a number is counted in
    thousandths: [Dec 8000] is 8.000.  [NaN] is [Decimal('NaN')]. *)
Inductive Decimal : Type :=
| NaN
| Dec (thousandths : Z).

#[global] Instance Decimal_eq_dec : EqDecision Decimal.
Proof. solve_decision. Defined.

(** Modelled from the spec: the commerce framework's money type ([shop.money],
    a dependency of this repository): an amount in a currency. *)
Record AbstractMoney : Type := MoneyIn {
  currency : string;
  amount : Decimal;
}.

#[global] Instance AbstractMoney_eq_dec : EqDecision AbstractMoney.
Proof. solve_decision. Defined.

(** [settings.py]: [SHOP_DEFAULT_CURRENCY = 'EUR']. *)
Definition SHOP_DEFAULT_CURRENCY : string := "EUR".

(** Modelled from the spec: [MoneyMaker(currency)(value)], the framework's
    constructor of a money value in a given currency; no value ([None]) makes
    the money empty (not a number). *)
Definition MoneyMaker (currency_code : string) (value : option Decimal) : AbstractMoney :=
  {| currency := currency_code; amount := default NaN value |}.

(** Modelled from the spec: [Money], the money class of the shop's default
    currency; [Money()] is [Money None], the default (empty) money value. *)
Definition Money (value : option Decimal) : AbstractMoney :=
  MoneyMaker SHOP_DEFAULT_CURRENCY value.

(** [Decimal(money)]: the amount without its currency. *)
Definition Decimal_of (m : AbstractMoney) : Decimal := amount m.

(** ** Exceptions and results *)

(** The model classes that occur in an exception's name. *)
Inductive ModelClass : Type :=
| CartItemClass
| SmartPhoneModelClass
| SmartPhoneVariantClass.

(** The exceptions the methods meet.  [DoesNotExist cls args] is
    [cls.DoesNotExist(args)], a subclass of Django's [ObjectDoesNotExist];
    [ObjectDoesNotExist_] is that base class raised as itself. *)
Inductive Exception : Type :=
| KeyError (key : string)
| ObjectDoesNotExist_ (msg : string)
| DoesNotExist (cls : ModelClass) (args : ExceptionArgs)
| MultipleObjectsReturned (cls : ModelClass)
| AttributeError (attr : string)
| OtherError (name : string)
with ExceptionArgs : Type :=
| Message (msg : string)
| Cause (e : Exception).

(** [isinstance(e, KeyError)]. *)
Definition is_KeyError (e : Exception) : bool :=
  match e with KeyError _ => true | _ => false end.

(** [isinstance(e, ObjectDoesNotExist)]: the base class and every model's
    [DoesNotExist]. *)
Definition is_ObjectDoesNotExist (e : Exception) : bool :=
  match e with
  | ObjectDoesNotExist_ _ | DoesNotExist _ _ => true
  | _ => false
  end.

(** A call returns a value or raises. *)
Inductive result (A : Type) : Type :=
| Ok (a : A)
| Raise (e : Exception).
Arguments Ok {A} a.
Arguments Raise {A} e.

(** Sequencing: an exception raised by the first call ends the block. *)
#[global] Instance result_bind : MBind result := λ A B k r,
  match r with
  | Ok a => k a
  | Raise e => Raise e
  end.

#[global] Instance result_ret : MRet result := λ A a, Ok a.

(** [try: body  except (classes) as e: handler(e)]; [caught] tells whether the
    exception is an instance of one of the classes. *)
Definition try_except {A : Type} (body : result A) (caught : Exception → bool)
    (handler : Exception → result A) : result A :=
  match body with
  | Ok a => Ok a
  | Raise e => if caught e then handler e else Raise e
  end.

(** Keyword arguments ([**kwargs]): a dictionary from names to values, a
    value being a string or [None]. *)
Abbreviation kwargs := (gmap string (option string)).

(** ** The rows of the tables *)

(** [CartItem] (the framework's default cart item; its columns are those of
    the migration).  [R] is how the [product] relation is held: the
    product's primary key in a row of the table, the product object itself
    in an instance whose relation has been followed. *)
Module CartItem.
Record t {R : Type} : Type := Build {
  id : Z;
  product_code : option string;
  extra : gmap string string;
  quantity : Z;
  cart : Z;
  product : R;
}.
Arguments t : clear implicits.
Arguments Build {R}.
End CartItem.

Module Cart.
Record t : Type := Build {
  id : Z;
  extra : gmap string string;
  customer : Z;
}.
End Cart.

Module SmartPhoneVariant.
Record t : Type := Build {
  id : Z;
  product : Z;
  product_code : string;
  unit_price : AbstractMoney;
  storage : Z;
  quantity : Z;
}.

#[global] Instance eq_dec : EqDecision t.
Proof. solve_decision. Defined.

Definition get_price {Request : Type} (self : t) (request : Request) : AbstractMoney :=
  unit_price self.

(** The order of the primary keys. *)
Definition pk_le (v w : t) : Prop := id v ≤ id w.

#[global] Instance pk_le_dec : RelDecision pk_le.
Proof. intros v w. unfold pk_le. apply _. Defined.

#[global] Instance pk_le_total : Total pk_le.
Proof. intros v w. unfold pk_le. lia. Qed.

#[global] Instance pk_le_trans : Transitive pk_le.
Proof. intros u v w. unfold pk_le. lia. Qed.
End SmartPhoneVariant.

(** The database: the tables the methods query. *)
Record DB : Type := {
  myshop_smartphonevariant : list SmartPhoneVariant.t;
  myshop_cartitem : list (CartItem.t Z);
}.

(** The framework's [AvailableProductMixin], a base class of
    [SmartPhoneVariant] that is no part of this repository: what a variant
    does when asked for its availability and when stock is deducted from it.
    [variant.deduct_from_stock(quantity)] acts on the database. *)
Class AvailableProductMixin : Type := {
  Availability : Type;
  variant_get_availability :
    ∀ {Request : Type}, DB → SmartPhoneVariant.t → Request → result Availability;
  variant_deduct_from_stock : DB → SmartPhoneVariant.t → Z → result DB;
}.

(** ** Query sets *)

(** [qs.exists()]. *)
Definition exists_ {A : Type} (qs : list A) : bool :=
  match qs with
  | [] => false
  | _ :: _ => true
  end.

(** [qs.get(...)] once the lookup has selected the rows [matches]: the one
    row, [DoesNotExist] when there is none, [MultipleObjectsReturned] when
    there are several. *)
Definition get_one {A : Type} (cls : ModelClass) (matches : list A) : result A :=
  match matches with
  | [] => Raise (DoesNotExist cls (Message "matching query does not exist"))
  | [row] => Ok row
  | _ :: _ :: _ => Raise (MultipleObjectsReturned cls)
  end.

(** SQL's [MIN] over a column: rows without a number are skipped, and no
    number at all gives [None] (SQL's NULL). *)
Fixpoint Min (column : list Decimal) : option Z :=
  match column with
  | [] => None
  | NaN :: rest => Min rest
  | Dec a :: rest =>
      match Min rest with
      | None => Some a
      | Some b => Some (Z.min a b)
      end
  end.

(** ** SmartPhoneModel *)

Module SmartPhoneModel.
(** The columns of [Product] and of [SmartPhoneModel] (decimal columns in
    units of their last decimal place), and [_price], the attribute
    [get_price] sets on the instance: [None] while the instance has no such
    attribute. *)
Record t : Type := Build {
  id : Z;
  active : bool;
  product_name : string;
  slug : string;
  order : Z;
  manufacturer : Z;
  battery_type : Z;
  battery_capacity : Z;
  ram_storage : Z;
  wifi_connectivity : Z;
  bluetooth : Z;
  gps : bool;
  operating_system : Z;
  width : Z;
  height : Z;
  weight : Z;
  screen_size : Z;
  _price : option AbstractMoney;
}.

(** [self._price = price]. *)
Definition set__price (self : t) (price : AbstractMoney) : t :=
  Build (id self) (active self) (product_name self) (slug self) (order self)
    (manufacturer self) (battery_type self) (battery_capacity self)
    (ram_storage self) (wifi_connectivity self) (bluetooth self) (gps self)
    (operating_system self) (width self) (height self) (weight self)
    (screen_size self) (Some price).

(** [self.variants]: the rows of [SmartPhoneVariant] whose [product] is this
    model (the foreign key's [related_name='variants']). *)
Definition variants (db : DB) (self : t) : list SmartPhoneVariant.t :=
  filter (λ v, SmartPhoneVariant.product v = id self) (myshop_smartphonevariant db).

(** [qs.first()] on the variants: the model declares no ordering, so Django
    orders by primary key and takes the first row. *)
Definition first (qs : list SmartPhoneVariant.t) : option SmartPhoneVariant.t :=
  head (merge_sort SmartPhoneVariant.pk_le qs).

(** [qs.aggregate(models.Min('unit_price'))['unit_price__min']]. *)
Definition aggregate_Min_unit_price (qs : list SmartPhoneVariant.t) : option Z :=
  Min ((λ v, amount (SmartPhoneVariant.unit_price v)) <$> qs).

Definition get_price {Request : Type} (db : DB) (self : t) (request : Request)
    : result (AbstractMoney * t) :=
  match _price self with
  | None =>
      self' ←
        (if exists_ (variants db self) then
           match first (variants db self) with
           | Some v =>
               let currency := currency (SmartPhoneVariant.unit_price v) in
               let aggr := aggregate_Min_unit_price (variants db self) in
               Ok (set__price self (MoneyMaker currency (Dec <$> aggr)))
           | None => Raise (AttributeError "unit_price")
           end
         else Ok (set__price self (Money None)));
      match _price self' with
      | Some price => Ok (price, self')
      | None => Raise (AttributeError "_price")
      end
  | Some price => Ok (price, self)
  end.

Definition get_product_variant (db : DB) (self : t) (kw : kwargs)
    : result SmartPhoneVariant.t :=
  try_except
    (let product_code := default None (kw !! "product_code") in
     get_one SmartPhoneVariantClass
       (filter (λ v, Some (SmartPhoneVariant.product_code v) = product_code)
          (variants db self)))
    (λ e, match e with DoesNotExist SmartPhoneVariantClass _ => true | _ => false end)
    (λ e, Raise (DoesNotExist SmartPhoneModelClass (Cause e))).

Definition get_availability {mixin : AvailableProductMixin} {Request : Type}
    (db : DB) (self : t) (request : Request) (kw : kwargs) : result Availability :=
  variant ← get_product_variant db self kw;
  variant_get_availability db variant request.

Definition deduct_from_stock {mixin : AvailableProductMixin}
    (db : DB) (self : t) (quantity : Z) (kw : kwargs) : result DB :=
  variant ← get_product_variant db self kw;
  variant_deduct_from_stock db variant quantity.

Definition get_product_variants (db : DB) (self : t) : list SmartPhoneVariant.t :=
  variants db self.

(** The loop of [is_in_cart]: the first cart item of the query set whose
    product code is the wanted one; falling off the end returns [None]. *)
Fixpoint for_cart_item (cart_item_qs : list (CartItem.t Z)) (product_code : option string)
    : option (CartItem.t Z) :=
  match cart_item_qs with
  | [] => None
  | cart_item :: rest =>
      if decide (CartItem.product_code cart_item = product_code)
      then Some cart_item
      else for_cart_item rest product_code
  end.

(** [kwargs['product_code']] raises [KeyError] when the key is absent, and
    the method then returns [None]. *)
Definition is_in_cart (db : DB) (self : t) (cart : Cart.t) (watched : bool)
    (kw : kwargs) : option (CartItem.t Z) :=
  match kw !! "product_code" with
  | None => None
  | Some product_code =>
      let cart_item_qs :=
        filter (λ ci, CartItem.cart ci = Cart.id cart ∧ CartItem.product ci = id self)
          (myshop_cartitem db) in
      for_cart_item cart_item_qs product_code
  end.
End SmartPhoneModel.

(** ** Commodity and SmartCard *)

Module Commodity.
Record t : Type := Build {
  id : Z;
  active : bool;
  product_name : string;
  slug : string;
  order : Z;
  manufacturer : Z;
  unit_price : AbstractMoney;
  product_code : string;
  quantity : Z;
  placeholder : option Z;
}.

Definition get_price {Request : Type} (self : t) (request : Request) : AbstractMoney :=
  unit_price self.
End Commodity.

Module SmartCard.
Record t : Type := Build {
  id : Z;
  active : bool;
  product_name : string;
  slug : string;
  order : Z;
  manufacturer : Z;
  unit_price : AbstractMoney;
  card_type : string;
  speed : string;
  product_code : string;
  storage : Z;
  quantity : Z;
}.

Definition get_price {Request : Type} (self : t) (request : Request) : AbstractMoney :=
  unit_price self.
End SmartCard.

(** ** OrderItem *)

(** What [populate_from_cart_item] asks of [cart_item.product], whatever
    product class it is: [get_product_variant] with keyword arguments returns an object
    that has a [unit_price]. *)
Class ProductModel (P : Type) : Type := {
  Variant : Type;
  get_product_variant : DB → P → kwargs → result Variant;
  unit_price : Variant → AbstractMoney;
}.

(** [SmartPhoneModel] is such a class, its variants being the rows of
    [SmartPhoneVariant]. *)
#[global] Instance SmartPhoneModel_ProductModel : ProductModel SmartPhoneModel.t := {
  Variant := SmartPhoneVariant.t;
  get_product_variant := SmartPhoneModel.get_product_variant;
  unit_price := SmartPhoneVariant.unit_price;
}.

Module OrderItem.
Record t : Type := Build {
  id : Z;
  product_name : option string;
  product_code : option string;
  _unit_price : option Decimal;
  _line_total : option Decimal;
  extra : gmap string string;
  quantity : Z;
  canceled : bool;
  order : Z;
  product : option Z;
}.

(** [self._unit_price = value]. *)
Definition set__unit_price (self : t) (value : Decimal) : t :=
  Build (id self) (product_name self) (product_code self) (Some value)
    (_line_total self) (extra self) (quantity self) (canceled self)
    (order self) (product self).

(** The framework's [BaseOrderItem], the base class of [OrderItem], is no
    part of this repository: [super().populate_from_cart_item(cart_item,
    request)] is whatever the framework does to the database and to the
    order item, and it may raise. *)
Class BaseOrderItem (Request P : Type) : Type := {
  super_populate_from_cart_item :
    DB → t → CartItem.t P → Request → result (DB * t);
}.

Definition populate_from_cart_item {Request P : Type}
    {base : BaseOrderItem Request P} {model : ProductModel P}
    (db : DB) (self : t) (cart_item : CartItem.t P) (request : Request)
    : result (DB * t) :=
  '(db, self) ← super_populate_from_cart_item db self cart_item request;
  try_except
    (variant ← get_product_variant db (CartItem.product cart_item)
                 {[ "product_code" := CartItem.product_code cart_item ]};
     Ok (db, set__unit_price self (Decimal_of (unit_price variant))))
    (λ e, is_KeyError e || is_ObjectDoesNotExist e)
    (λ e, Raise (DoesNotExist CartItemClass (Cause e))).
End OrderItem.

(** ** The schema of the product tables (migration 0001_initial) *)

Module Field.
(** The field classes the three product tables use. *)
Inductive kind : Type :=
| AutoField
| CharField (max_length : Z)
| MoneyField (decimal_places : Z)
| PositiveIntegerField
| ForeignKey (to : string)
| OneToOneField (to : string)
| PlaceholderField (to : string).

(** A field of a [CreateModel] operation with the options that constrain the
    column; an option the migration does not write has Django's default,
    [False]. *)
Record t : Type := Build {
  name : string;
  type : kind;
  primary_key : bool;
  unique : bool;
  null : bool;
}.

(** The column carries a uniqueness constraint: [unique=True], a primary
    key, or a one-to-one relation. *)
Definition is_unique (f : t) : bool :=
  unique f || primary_key f
  || match type f with OneToOneField _ => true | _ => false end.

(** The column is NOT NULL: a primary key is, whatever [null] says. *)
Definition not_null (f : t) : bool :=
  primary_key f || negb (null f).
End Field.

Module CreateModel.
Record t : Type := Build {
  name : string;
  fields : list Field.t;
}.
End CreateModel.

(** [migrations.CreateModel(name='SmartCard', ...)]. *)
Definition SmartCard_model : CreateModel.t :=
  CreateModel.Build "SmartCard"
    [ Field.Build "product_ptr" (Field.OneToOneField "myshop.Product") true false false;
      Field.Build "unit_price" (Field.MoneyField 3) false false false;
      Field.Build "card_type" (Field.CharField 15) false false false;
      Field.Build "speed" (Field.CharField 8) false false false;
      Field.Build "product_code" (Field.CharField 255) false true false;
      Field.Build "storage" Field.PositiveIntegerField false false false;
      Field.Build "quantity" Field.PositiveIntegerField false false false ].

(** [migrations.CreateModel(name='SmartPhoneVariant', ...)]. *)
Definition SmartPhoneVariant_model : CreateModel.t :=
  CreateModel.Build "SmartPhoneVariant"
    [ Field.Build "id" Field.AutoField true false false;
      Field.Build "product_code" (Field.CharField 255) false true false;
      Field.Build "unit_price" (Field.MoneyField 3) false false false;
      Field.Build "storage" Field.PositiveIntegerField false false false;
      Field.Build "quantity" Field.PositiveIntegerField false false false;
      Field.Build "product" (Field.ForeignKey "myshop.SmartPhoneModel") false false false ].

(** [migrations.CreateModel(name='Commodity', ...)]. *)
Definition Commodity_model : CreateModel.t :=
  CreateModel.Build "Commodity"
    [ Field.Build "product_ptr" (Field.OneToOneField "myshop.Product") true false false;
      Field.Build "unit_price" (Field.MoneyField 3) false false false;
      Field.Build "product_code" (Field.CharField 255) false true false;
      Field.Build "quantity" Field.PositiveIntegerField false false false;
      Field.Build "placeholder" (Field.PlaceholderField "cms.Placeholder") false false true ].

(** A value stored in a column. *)
Inductive Value : Type :=
| NULL
| Integer (n : Z)
| Text (s : string)
| Numeric (thousandths : Z).

#[global] Instance Value_eq_dec : EqDecision Value.
Proof. solve_decision. Defined.

(** A stored row: its value in each column, by column name. *)
Abbreviation Row := (gmap string Value).

(** The values of one column, row by row; a row that has no value there
    holds [NULL]. *)
Definition column (name : string) (rows : list Row) : list Value :=
  (λ r, default NULL (r !! name)) <$> rows.

(** What the database enforces for one field of a table: no [NULL] in a
    NOT NULL column, and no value twice in a unique column ([NULL]s apart,
    as in SQL). *)
Definition satisfies (f : Field.t) (rows : list Row) : Prop :=
  (Field.not_null f = true → NULL ∉ column (Field.name f) rows)
  ∧ (Field.is_unique f = true →
       NoDup (filter (λ v, v ≠ NULL) (column (Field.name f) rows))).

(** A valid state of a table: every field's constraints hold. *)
Definition valid_table (m : CreateModel.t) (rows : list Row) : Prop :=
  Forall (λ f, satisfies f rows) (CreateModel.fields m).

#[global] Instance satisfies_dec f rows : Decision (satisfies f rows).
Proof. unfold satisfies. apply _. Defined.

#[global] Instance valid_table_dec m rows : Decision (valid_table m rows).
Proof. unfold valid_table. apply _. Defined.

(** [Model.objects.filter(product_code=code)] on stored rows. *)
Definition filter_product_code (code : string) (rows : list Row) : list Row :=
  filter (λ r, r !! "product_code" = Some (Text code)) rows.

(** What a money column stores: the number, and no value for an amount
    that is no number. *)
Definition money_value (m : AbstractMoney) : Value :=
  match amount m with
  | NaN => NULL
  | Dec d => Numeric d
  end.

(** The stored row of a smartphone variant. *)
Definition SmartPhoneVariant_row (v : SmartPhoneVariant.t) : Row :=
  {[ "id" := Integer (SmartPhoneVariant.id v);
     "product_code" := Text (SmartPhoneVariant.product_code v);
     "unit_price" := money_value (SmartPhoneVariant.unit_price v);
     "storage" := Integer (SmartPhoneVariant.storage v);
     "quantity" := Integer (SmartPhoneVariant.quantity v);
     "product" := Integer (SmartPhoneVariant.product v) ]}.

(** A valid database state: the variants' table satisfies its schema. *)
Definition valid_db (db : DB) : Prop :=
  valid_table SmartPhoneVariant_model
    (SmartPhoneVariant_row <$> myshop_smartphonevariant db).

#[global] Instance valid_db_dec db : Decision (valid_db db).
Proof. unfold valid_db. apply _. Defined.

(** ** The choices of SmartCard *)

(** Python's [2 * (x,)]: the one-element tuple repeated twice. *)
Definition twice {A : Type} (x : A) : A * A := (x, x).

(** [models.py], the choices of [SmartCard.card_type]:
    [[2 * ('{}{}'.format(s, t),) for t in types for s in prefixes]], the
    outer loop running over the types. *)
Definition card_type_choices_of (types prefixes : list string) : list (string * string) :=
  t ← types; s ← prefixes; [twice (s +:+ t)].

Definition SmartCard_card_type_choices : list (string * string) :=
  card_type_choices_of ["SD"; "SDXC"; "SDHC"; "SDHC II"] [""; "micro "].

(** [models.py], the choices of [SmartCard.speed]:
    [[(str(s), "{} MB/s".format(s)) for s in speeds]]. *)
Definition speed_choices_of (speeds : list Z) : list (string * string) :=
  s ← speeds; [(pretty s, pretty s +:+ " MB/s")].

Definition SmartCard_speed_choices : list (string * string) :=
  speed_choices_of [4; 20; 30; 40; 48; 80; 95; 280].

(** The choices the migration records for the two columns, and the
    [max_length] it gives them. *)
Definition migration_card_type_choices : list (string * string) :=
  [ ("SD", "SD"); ("micro SD", "micro SD"); ("SDXC", "SDXC");
    ("micro SDXC", "micro SDXC"); ("SDHC", "SDHC"); ("micro SDHC", "micro SDHC");
    ("SDHC II", "SDHC II"); ("micro SDHC II", "micro SDHC II") ].

Definition migration_speed_choices : list (string * string) :=
  [ ("4", "4 MB/s"); ("20", "20 MB/s"); ("30", "30 MB/s"); ("40", "40 MB/s");
    ("48", "48 MB/s"); ("80", "80 MB/s"); ("95", "95 MB/s"); ("280", "280 MB/s") ].

(** [max_length] of a field of a [CreateModel] operation, when the field is
    a [CharField]. *)
Definition max_length_of (m : CreateModel.t) (name : string) : option Z :=
  f ← list_find (λ f, Field.name f = name) (CreateModel.fields m);
  match Field.type f.2 with
  | Field.CharField n => Some n
  | _ => None
  end.

(** ** Settings read from the environment *)

Module settings.
(** [os.environ]: the variables that are set, with their values. *)
Abbreviation environ := (gmap string string).

(** [os.getenv(key)] and [os.environ.get(key)]: [None] for a variable that
    is not set. *)
Definition getenv (env : environ) (key : string) : option string := env !! key.

(** Python's truth value of a string: every string but the empty one. *)
Definition truth (s : string) : bool :=
  match s with
  | EmptyString => false
  | String _ _ => true
  end.

(** The caches declared before the environment is looked at. *)
Definition CACHES_declared : gmap string (gmap string string) :=
  {[ "default" := {[ "BACKEND" := "django.core.cache.backends.locmem.LocMemCache" ]};
     "select2" := {[ "BACKEND" := "django.core.cache.backends.dummy.DummyCache" ]} ]}.

Record session_redis : Type := SessionRedis {
  host : string;
  port : Z;
  db : Z;
  prefix : string;
  socket_timeout : Z;
}.

(** The settings the block on [REDIS_HOST] assigns; a setting the block
    leaves undefined is [None]. *)
Record session_and_cache : Type := SessionAndCache {
  SESSION_ENGINE : string;
  SESSION_REDIS : option session_redis;
  CACHES : gmap string (gmap string string);
  CACHE_MIDDLEWARE_ALIAS : option string;
  CACHE_MIDDLEWARE_SECONDS : option Z;
}.

(** [REDIS_HOST = os.getenv('REDIS_HOST')] and the [if REDIS_HOST: ... else:
    ...] that follows; [None] and the empty string are false. *)
Definition session_and_cache_settings (env : environ) : session_and_cache :=
  let without_redis :=
    SessionAndCache "django.contrib.sessions.backends.cached_db" None
      CACHES_declared None None in
  match getenv env "REDIS_HOST" with
  | Some REDIS_HOST =>
      if truth REDIS_HOST then
        SessionAndCache "redis_sessions.session"
          (Some (SessionRedis REDIS_HOST 6379 0 "session-" 1))
          (<[ "default" := {[ "BACKEND" := "redis_cache.RedisCache";
                              "LOCATION" := "redis://" +:+ REDIS_HOST +:+ ":6379/1" ]} ]>
             CACHES_declared)
          (Some "default") (Some 3600)
      else without_redis
  | None => without_redis
  end.

(** A setting that is a number by default and a string when it comes from
    the environment. *)
Inductive int_or_str : Type :=
| Int (n : Z)
| Str (s : string).

(** The settings for sending mail. *)
Definition EMAIL_HOST (env : environ) : string :=
  default "localhost" (getenv env "DJANGO_EMAIL_HOST").

Definition EMAIL_PORT (env : environ) : int_or_str :=
  match getenv env "DJANGO_EMAIL_PORT" with
  | Some value => Str value
  | None => Int 25
  end.

Definition EMAIL_USE_TLS (env : environ) : bool :=
  truth (default "1" (getenv env "DJANGO_EMAIL_USE_TLS")).

(** The path separator, [/]. *)
Definition sep : Ascii.ascii := Ascii.ascii_of_nat 47.

(** [str.startswith('/')] and [str.endswith('/')]. *)
Definition startswith_sep (s : string) : bool :=
  match s with
  | String c _ => bool_decide (c = sep)
  | EmptyString => false
  end.

Fixpoint endswith_sep (s : string) : bool :=
  match s with
  | EmptyString => false
  | String c EmptyString => bool_decide (c = sep)
  | String _ rest => endswith_sep rest
  end.

(** [os.path.join(a, b)] on POSIX: an absolute [b] replaces [a]; otherwise
    [b] is appended, after a separator unless [a] is empty or ends in one. *)
Definition path_join (a b : string) : string :=
  if startswith_sep b then b
  else if negb (truth a) || endswith_sep a then a +:+ b
  else a +:+ "/" +:+ b.

Section paths.
(** [BASE_DIR = os.path.dirname(__file__)] depends on where the project is
    installed, and [os.path.abspath] on the file system. *)
Variable BASE_DIR : string.
Variable abspath : string → string.

Definition PROJECT_ROOT : string := abspath (path_join BASE_DIR "..").

Definition WORK_DIR (env : environ) : string :=
  default (abspath (path_join PROJECT_ROOT "workdir")) (getenv env "DJANGO_WORKDIR").

(** [DATABASES['default']['NAME']]. *)
Definition DATABASES_default_NAME (env : environ) : string :=
  path_join (WORK_DIR env) "db.sqlite3".

Definition MEDIA_ROOT (env : environ) : string := path_join (WORK_DIR env) "media".

Definition STATIC_ROOT (env : environ) : string :=
  default (path_join (WORK_DIR env) "static") (getenv env "DJANGO_STATIC_ROOT").

Definition FIXTURE_DIRS (env : environ) : list string :=
  [path_join (WORK_DIR env) "fixtures"].
End paths.
End settings.

(** ** What stock deduction may change *)

(** The row [w'] is the row [w] but for its stock. *)
Definition differs_in_quantity_only (w w' : SmartPhoneVariant.t) : Prop :=
  SmartPhoneVariant.id w' = SmartPhoneVariant.id w
  ∧ SmartPhoneVariant.product w' = SmartPhoneVariant.product w
  ∧ SmartPhoneVariant.product_code w' = SmartPhoneVariant.product_code w
  ∧ SmartPhoneVariant.unit_price w' = SmartPhoneVariant.unit_price w
  ∧ SmartPhoneVariant.storage w' = SmartPhoneVariant.storage w.

(** The tables of [db'] are those of [db] but for the stock of the variants
    that [touched] selects. *)
Definition stock_changed_only (touched : SmartPhoneVariant.t → Prop)
    `{!∀ w, Decision (touched w)} (db db' : DB) : Prop :=
  myshop_cartitem db' = myshop_cartitem db
  ∧ Forall2 (λ w w', if decide (touched w) then differs_in_quantity_only w w' else w' = w)
      (myshop_smartphonevariant db) (myshop_smartphonevariant db').

(** A framework whose [variant.deduct_from_stock] changes nothing but the
    stock of the variant it is called on (the row with its primary key). *)
Definition deducts_from_receiver_only (mixin : AvailableProductMixin) : Prop :=
  ∀ db v quantity db',
    variant_deduct_from_stock db v quantity = Ok db' →
    stock_changed_only (λ w, SmartPhoneVariant.id w = SmartPhoneVariant.id v) db db'.

(** ** Sample data *)

(** Amounts in euros. *)
Definition EUR (thousandths : Z) : AbstractMoney :=
  MoneyMaker "EUR" (Some (Dec thousandths)).

(** A smartphone model as loaded from the database: no price computed yet. *)
Definition phone : SmartPhoneModel.t :=
  SmartPhoneModel.Build 1 true "Phone One" "phone-one" 1 1 2 3000 4096 1 1 true 1
    705 1436 1380 470 None.

(** The same instance after [get_price] has set its price to 10 euros, and
    to 8 euros. *)
Definition phone_priced10 : SmartPhoneModel.t :=
  SmartPhoneModel.set__price phone (EUR 10000).
Definition phone_priced8 : SmartPhoneModel.t :=
  SmartPhoneModel.set__price phone (EUR 8000).

(** Its three variants, priced 10, 8 and 12 euros, and a variant of another
    model. *)
Definition variant16 : SmartPhoneVariant.t :=
  SmartPhoneVariant.Build 1 1 "sp-16" (EUR 10000) 16 5.
Definition variant32 : SmartPhoneVariant.t :=
  SmartPhoneVariant.Build 2 1 "sp-32" (EUR 8000) 32 3.
Definition variant64 : SmartPhoneVariant.t :=
  SmartPhoneVariant.Build 3 1 "sp-64" (EUR 12000) 64 0.
Definition other_variant : SmartPhoneVariant.t :=
  SmartPhoneVariant.Build 4 2 "xp-8" (EUR 5000) 8 7.

(** A cart holding the 32 GB variant of the phone, a commodity, and another
    customer's cart item for the 64 GB variant. *)
Definition cart : Cart.t := Cart.Build 1 ∅ 1.
Definition cart_item32 : CartItem.t Z := CartItem.Build 1 (Some "sp-32") ∅ 2 1 1.
Definition cart_item_commodity : CartItem.t Z := CartItem.Build 2 (Some "com-1") ∅ 1 1 9.
Definition cart_item64 : CartItem.t Z := CartItem.Build 3 (Some "sp-64") ∅ 1 2 1.

Definition sample_db : DB :=
  {| myshop_smartphonevariant := [variant16; variant32; variant64; other_variant];
     myshop_cartitem := [cart_item32; cart_item_commodity; cart_item64] |}.

(** The same database before the 32 GB variant was put on sale, and after
    all variants of the phone were withdrawn. *)
Definition earlier_db : DB :=
  {| myshop_smartphonevariant := [variant16; variant64; other_variant];
     myshop_cartitem := [] |}.
Definition later_db : DB :=
  {| myshop_smartphonevariant := [other_variant];
     myshop_cartitem := [] |}.

(** Keyword arguments naming the 32 GB variant, and a variant that does not
    exist. *)
Definition kw32 : kwargs := {[ "product_code" := Some "sp-32" ]}.
Definition kw128 : kwargs := {[ "product_code" := Some "sp-128" ]}.

(** Requests, for the samples: the path asked for. *)
Definition SampleRequest : Type := string.

(** A stand-in for the framework's [AvailableProductMixin], to run the
    methods on the sample data: stock is deducted from the one row that has
    the variant's primary key, and the availability is the stock. *)
Definition sample_mixin : AvailableProductMixin := {|
  Availability := Z;
  variant_get_availability _ _ v _ := Ok (SmartPhoneVariant.quantity v);
  variant_deduct_from_stock db v quantity :=
    Ok {| myshop_smartphonevariant :=
            (λ w, if decide (SmartPhoneVariant.id w = SmartPhoneVariant.id v)
                  then SmartPhoneVariant.Build (SmartPhoneVariant.id w)
                         (SmartPhoneVariant.product w) (SmartPhoneVariant.product_code w)
                         (SmartPhoneVariant.unit_price w) (SmartPhoneVariant.storage w)
                         (SmartPhoneVariant.quantity w - quantity)
                  else w) <$> myshop_smartphonevariant db;
          myshop_cartitem := myshop_cartitem db |};
|}.

(** A stand-in for the framework's [BaseOrderItem], taking the steps the
    framework's [populate_from_cart_item] takes.  A cart item of quantity 0
    is on the wish list and is refused with [CartItem.DoesNotExist].  Stock
    is deducted from the product, with the cart item's product code and then
    its extra data as keyword arguments.  The product, its name, the cart
    item's product code, the product's price, the quantity and the extra
    data are copied to the order item.  (The line total, which the cart
    modifiers compute, is no column of the cart item and is left as it
    is.) *)
Definition sample_base_order_item
    : OrderItem.BaseOrderItem SampleRequest SmartPhoneModel.t := {|
  OrderItem.super_populate_from_cart_item db self cart_item request :=
    if decide (CartItem.quantity cart_item = 0) then
      Raise (DoesNotExist CartItemClass (Message "Cart Item is on the Wish List"))
    else
      let kw : kwargs :=
        (Some <$> CartItem.extra cart_item)
        ∪ {[ "product_code" := CartItem.product_code cart_item ]} in
      db ← SmartPhoneModel.deduct_from_stock (mixin := sample_mixin) db
             (CartItem.product cart_item) (CartItem.quantity cart_item) kw;
      priced ← SmartPhoneModel.get_price db (CartItem.product cart_item) request;
      Ok (db, OrderItem.Build (OrderItem.id self)
                (Some (SmartPhoneModel.product_name (CartItem.product cart_item)))
                (CartItem.product_code cart_item) (Some (Decimal_of priced.1))
                (OrderItem._line_total self) (CartItem.extra cart_item)
                (CartItem.quantity cart_item) (OrderItem.canceled self)
                (OrderItem.order self)
                (Some (SmartPhoneModel.id (CartItem.product cart_item))));
|}.

(** A new order item. *)
Definition order_item : OrderItem.t :=
  OrderItem.Build 1 None None None None ∅ 0 false 1 None.

(** Cart items with their product loaded: two 32 GB phones; one 16 GB
    phone; a variant that does not exist; a 32 GB phone on the wish list;
    and an item whose product code names no variant while its extra data
    name the 32 GB phone. *)
Definition loaded_cart_item32 : CartItem.t SmartPhoneModel.t :=
  CartItem.Build 1 (Some "sp-32") ∅ 2 1 phone.
Definition loaded_cart_item16 : CartItem.t SmartPhoneModel.t :=
  CartItem.Build 5 (Some "sp-16") ∅ 1 1 phone.
Definition loaded_cart_item_unknown : CartItem.t SmartPhoneModel.t :=
  CartItem.Build 4 (Some "sp-128") ∅ 1 1 phone.
Definition loaded_cart_item_wish : CartItem.t SmartPhoneModel.t :=
  CartItem.Build 6 (Some "sp-32") ∅ 0 1 phone.
Definition loaded_cart_item_mismatch : CartItem.t SmartPhoneModel.t :=
  CartItem.Build 7 (Some "sp-128") {[ "product_code" := "sp-32" ]} 1 1 phone.

(** The sample database after two 32 GB phones, one 32 GB phone and one
    16 GB phone were taken from stock. *)
Definition sold32_db : DB :=
  {| myshop_smartphonevariant :=
       [variant16; SmartPhoneVariant.Build 2 1 "sp-32" (EUR 8000) 32 1;
        variant64; other_variant];
     myshop_cartitem := myshop_cartitem sample_db |}.
Definition sold32_once_db : DB :=
  {| myshop_smartphonevariant :=
       [variant16; SmartPhoneVariant.Build 2 1 "sp-32" (EUR 8000) 32 2;
        variant64; other_variant];
     myshop_cartitem := myshop_cartitem sample_db |}.
Definition sold16_db : DB :=
  {| myshop_smartphonevariant :=
       [SmartPhoneVariant.Build 1 1 "sp-16" (EUR 10000) 16 4; variant32;
        variant64; other_variant];
     myshop_cartitem := myshop_cartitem sample_db |}.

(** The order item as the stand-in's step leaves it for the 32 GB and the
    16 GB cart item and for the mismatching one: it holds the model's
    starting price, 8 euros. *)
Definition order_item32 : OrderItem.t :=
  OrderItem.Build 1 (Some "Phone One") (Some "sp-32") (Some (Dec 8000)) None ∅ 2
    false 1 (Some 1).
Definition order_item16_step : OrderItem.t :=
  OrderItem.Build 1 (Some "Phone One") (Some "sp-16") (Some (Dec 8000)) None ∅ 1
    false 1 (Some 1).
Definition order_item_mismatch_step : OrderItem.t :=
  OrderItem.Build 1 (Some "Phone One") (Some "sp-128") (Some (Dec 8000)) None
    {[ "product_code" := "sp-32" ]} 1 false 1 (Some 1).

(** The order item populated from the 16 GB cart item: 10 euros. *)
Definition order_item16 : OrderItem.t :=
  OrderItem.Build 1 (Some "Phone One") (Some "sp-16") (Some (Dec 10000)) None ∅ 1
    false 1 (Some 1).

(** The sample database with its rows stored in another order. *)
Definition reordered_db : DB :=
  {| myshop_smartphonevariant := [other_variant; variant64; variant32; variant16];
     myshop_cartitem := [cart_item64; cart_item32; cart_item_commodity] |}.

(** Keyword arguments that name no product code, and a cart item that
    names none. *)
Definition kw_none : kwargs := {[ "product_code" := None ]}.
Definition kw_empty : kwargs := ∅.

(** An environment with a Redis host and a working directory. *)
Definition sample_environ : settings.environ :=
  {[ "REDIS_HOST" := "cache.local"; "DJANGO_WORKDIR" := "/srv/work";
     "DJANGO_EMAIL_USE_TLS" := "0" ]}.

(** * Properties *)

(** ** Query sets *)

Lemma exists_true_iff {A : Type} (qs : list A) : exists_ qs = true ↔ qs ≠ [].
Proof. destruct qs; simpl; split; congruence. Qed.

(** [MIN] is below every number of the column. *)
Lemma Min_lower_bound (column : list Decimal) (a : Z) :
  Dec a ∈ column → ∃ m, Min column = Some m ∧ m ≤ a.
Proof.
  induction column as [|d rest IH]; intros Hin.
  - by apply not_elem_of_nil in Hin.
  - apply elem_of_cons in Hin as [<- | Hin]; simpl.
    + destruct (Min rest) as [b|]; eexists; split; try reflexivity; lia.
    + destruct (IH Hin) as (m & -> & Hle).
      destruct d as [|b]; eexists; split; try reflexivity; lia.
Qed.

(** [MIN] is one of the numbers of the column. *)
Lemma Min_attained (column : list Decimal) (m : Z) :
  Min column = Some m → Dec m ∈ column.
Proof.
  revert m. induction column as [|d rest IH]; intros m; simpl; [done|].
  destruct d as [|a].
  - intros H. apply elem_of_cons. right. by apply IH.
  - destruct (Min rest) as [b|] eqn:Hrest; intros [= <-].
    + destruct (Z.min_spec a b) as [[_ ->] | [_ ->]].
      * apply elem_of_cons. by left.
      * apply elem_of_cons. right. by apply IH.
    + apply elem_of_cons. by left.
Qed.

(** ** SmartPhoneModel.get_price *)

(** [first] finds a row in every query set that has one. *)
Lemma first_is_Some (qs : list SmartPhoneVariant.t) :
  qs ≠ [] → is_Some (SmartPhoneModel.first qs).
Proof.
  intros Hne. unfold SmartPhoneModel.first.
  destruct (merge_sort SmartPhoneVariant.pk_le qs) as [|v sorted] eqn:Hsort.
  - exfalso. apply Hne. apply Permutation.Permutation_nil.
    rewrite <- Hsort. apply merge_sort_Permutation.
  - by eexists.
Qed.

(** [first] is a row of the query set with the least primary key. *)
Lemma first_least (qs : list SmartPhoneVariant.t) (v : SmartPhoneVariant.t) :
  SmartPhoneModel.first qs = Some v →
  v ∈ qs ∧ ∀ w, w ∈ qs → SmartPhoneVariant.id v ≤ SmartPhoneVariant.id w.
Proof.
  unfold SmartPhoneModel.first. intros Hhead.
  pose proof (merge_sort_Permutation SmartPhoneVariant.pk_le qs) as Hperm.
  pose proof (StronglySorted_merge_sort SmartPhoneVariant.pk_le qs) as Hsorted.
  destruct (merge_sort SmartPhoneVariant.pk_le qs) as [|u sorted]; simplify_eq/=.
  split.
  - rewrite <- Hperm. apply elem_of_cons. by left.
  - intros w Hw. rewrite <- Hperm in Hw.
    apply elem_of_cons in Hw as [-> | Hw]; [lia|].
    apply StronglySorted_inv in Hsorted as [_ Hall].
    rewrite Forall_forall in Hall. by apply Hall.
Qed.

(** What a first call computes: the price is cached on the instance. *)
Lemma get_price_fresh {Request : Type} (db : DB) (self : SmartPhoneModel.t)
    (request : Request) (v0 : SmartPhoneVariant.t) :
  SmartPhoneModel._price self = None →
  SmartPhoneModel.first (SmartPhoneModel.variants db self) = Some v0 →
  let price :=
    MoneyMaker (currency (SmartPhoneVariant.unit_price v0))
      (Dec <$> SmartPhoneModel.aggregate_Min_unit_price (SmartPhoneModel.variants db self)) in
  SmartPhoneModel.get_price db self request
  = Ok (price, SmartPhoneModel.set__price self price).
Proof.
  intros Hfresh Hfirst. unfold SmartPhoneModel.get_price.
  rewrite Hfresh, Hfirst.
  destruct (SmartPhoneModel.variants db self) as [|v vs] eqn:Hvs; [done|].
  reflexivity.
Qed.

(** A later call returns the cached price, whatever the database holds. *)
Lemma get_price_cached {Request : Type} (db : DB) (self : SmartPhoneModel.t)
    (request : Request) (price : AbstractMoney) :
  SmartPhoneModel._price self = Some price →
  SmartPhoneModel.get_price db self request = Ok (price, self).
Proof. intros Hcached. unfold SmartPhoneModel.get_price. by rewrite Hcached. Qed.

(** The price of the phone before the 32 GB variant was on sale, and with
    its three variants. *)
Example get_price_earlier :
  SmartPhoneModel.get_price earlier_db phone "/" = Ok (EUR 10000, phone_priced10).
Proof. reflexivity. Qed.

Example get_price_three_variants :
  SmartPhoneModel.get_price sample_db phone "/" = Ok (EUR 8000, phone_priced8).
Proof. reflexivity. Qed.

(** A first call on a model that has variants: the price is in the currency
    of the first variant, below the price of every variant, and the price of
    one of them. *)
Lemma get_price_first_call {Request : Type} (db : DB) (self : SmartPhoneModel.t)
    (request : Request) :
  SmartPhoneModel._price self = None →
  SmartPhoneModel.variants db self ≠ [] →
  ∃ v0 price,
    SmartPhoneModel.first (SmartPhoneModel.variants db self) = Some v0
    ∧ SmartPhoneModel.get_price db self request
      = Ok (price, SmartPhoneModel.set__price self price)
    ∧ currency price = currency (SmartPhoneVariant.unit_price v0)
    ∧ (∀ v q, v ∈ SmartPhoneModel.variants db self →
         amount (SmartPhoneVariant.unit_price v) = Dec q →
         ∃ p, amount price = Dec p ∧ p ≤ q)
    ∧ (∀ p, amount price = Dec p →
         ∃ v, v ∈ SmartPhoneModel.variants db self
              ∧ amount (SmartPhoneVariant.unit_price v) = Dec p).
Proof.
  intros Hfresh Hne.
  destruct (first_is_Some _ Hne) as [v0 Hfirst].
  exists v0. eexists. split; [exact Hfirst|].
  split; [by apply get_price_fresh|].
  split; [reflexivity|]. simpl.
  unfold SmartPhoneModel.aggregate_Min_unit_price. split.
  - intros v q Hv Hq.
    destruct (Min_lower_bound
                ((λ w, amount (SmartPhoneVariant.unit_price w))
                   <$> SmartPhoneModel.variants db self) q) as (m & -> & Hle).
    + rewrite <- Hq. apply list_elem_of_fmap. by exists v.
    + by exists m.
  - intros p Hp.
    destruct (Min _) as [m|] eqn:Hmin; simplify_eq/=.
    apply Min_attained in Hmin.
    apply list_elem_of_fmap in Hmin as (v & Hv & Hin).
    by exists v.
Qed.

(** C1 (as amended): on an instance of SmartPhoneModel that holds no cached
    price and has at least one variant, [get_price] returns, and caches on the
    instance, a money value whose currency is that of the first variant (the
    one [first] finds) and whose amount is the minimum of the variants' unit
    prices: it is below the price of every variant and it is the price of one
    of them.  In particular, when the variants are priced 10, 8 and 12 in one
    currency, the answer is 8 in that currency.  An instance that already
    holds a cached price returns that price and stays as it is. *)
Theorem get_price_minimum {Request : Type} (db : DB) (self : SmartPhoneModel.t)
    (request : Request) :
  (SmartPhoneModel._price self = None →
   (SmartPhoneModel.variants db self ≠ [] →
    ∃ v0 price,
      SmartPhoneModel.first (SmartPhoneModel.variants db self) = Some v0
      ∧ SmartPhoneModel.get_price db self request
        = Ok (price, SmartPhoneModel.set__price self price)
      ∧ currency price = currency (SmartPhoneVariant.unit_price v0)
      ∧ (∀ v q, v ∈ SmartPhoneModel.variants db self →
           amount (SmartPhoneVariant.unit_price v) = Dec q →
           ∃ p, amount price = Dec p ∧ p ≤ q)
      ∧ (∀ p, amount price = Dec p →
           ∃ v, v ∈ SmartPhoneModel.variants db self
                ∧ amount (SmartPhoneVariant.unit_price v) = Dec p))
   ∧ (∀ c,
        SmartPhoneVariant.unit_price <$> SmartPhoneModel.variants db self
        ≡ₚ [MoneyMaker c (Some (Dec 10000)); MoneyMaker c (Some (Dec 8000));
            MoneyMaker c (Some (Dec 12000))] →
        SmartPhoneModel.get_price db self request
        = Ok (MoneyMaker c (Some (Dec 8000)),
              SmartPhoneModel.set__price self (MoneyMaker c (Some (Dec 8000))))))
  ∧ (∀ cached, SmartPhoneModel._price self = Some cached →
       SmartPhoneModel.get_price db self request = Ok (cached, self)).
Proof.
  split; [|intros cached Hcached; by apply get_price_cached].
  intros Hfresh. split; [by apply get_price_first_call|].
  intros c Hprices.
  assert (SmartPhoneModel.variants db self ≠ []) as Hne.
  { intros Hnil. rewrite Hnil in Hprices. by apply Permutation_nil_cons in Hprices. }
  destruct (get_price_first_call db self request Hfresh Hne)
    as (v0 & [cur amt] & Hfirst & Hget & Hcur & Hlow & Hatt).
  simpl in Hcur, Hlow, Hatt.
  assert (∀ v, v ∈ SmartPhoneModel.variants db self →
               currency (SmartPhoneVariant.unit_price v) = c
               ∧ (amount (SmartPhoneVariant.unit_price v) = Dec 10000
                  ∨ amount (SmartPhoneVariant.unit_price v) = Dec 8000
                  ∨ amount (SmartPhoneVariant.unit_price v) = Dec 12000)) as Hpriced.
  { intros v Hv.
    assert (SmartPhoneVariant.unit_price v
            ∈ SmartPhoneVariant.unit_price <$> SmartPhoneModel.variants db self) as Hin
      by (apply list_elem_of_fmap; by exists v).
    rewrite Hprices in Hin. set_unfold in Hin.
    destruct Hin as [Heq | [Heq | [Heq | []]]]; rewrite Heq; simpl; auto. }
  assert (∃ v8, v8 ∈ SmartPhoneModel.variants db self
                ∧ amount (SmartPhoneVariant.unit_price v8) = Dec 8000)
    as (v8 & Hv8 & Hprice8).
  { assert (MoneyMaker c (Some (Dec 8000))
            ∈ SmartPhoneVariant.unit_price <$> SmartPhoneModel.variants db self) as Hin
      by (rewrite Hprices; apply elem_of_cons; right; apply elem_of_cons; by left).
    apply list_elem_of_fmap in Hin as (v8 & Heq & Hv8).
    exists v8. split; [done|]. by rewrite <- Heq. }
  destruct (Hlow v8 8000 Hv8 Hprice8) as (p & -> & Hle).
  destruct (Hatt p eq_refl) as (v & Hv & Hprice).
  destruct (Hpriced v Hv) as [_ Hthree].
  assert (p = 8000) as ->.
  { rewrite Hprice in Hthree.
    destruct Hthree as [[= ->] | [[= ->] | [= ->]]]; lia. }
  apply first_least in Hfirst as [Hv0 _].
  destruct (Hpriced v0 Hv0) as [Hc _]. rewrite Hc in Hcur. subst cur.
  exact Hget.
Qed.

(** The model whose variants cost 10, 8 and 12 euros is priced 8 euros, and
    an instance priced 10 euros earlier keeps that price. *)
Lemma get_price_minimum_sample :
  SmartPhoneModel.get_price sample_db phone "/" = Ok (EUR 8000, phone_priced8)
  ∧ SmartPhoneModel.get_price sample_db phone_priced10 "/"
    = Ok (EUR 10000, phone_priced10).
Proof.
  split.
  - apply (proj2 (proj1 (get_price_minimum sample_db phone "/") eq_refl) "EUR").
    reflexivity.
  - apply (proj2 (get_price_minimum sample_db phone_priced10 "/") (EUR 10000)).
    reflexivity.
Defined.

(** C1 as stated fails on an instance that already holds a price: the phone
    was priced 10 euros before the 8-euro variant was put on sale; with its
    variants now priced 10, 8 and 12 euros the same instance still answers
    10 euros, and the minimum is 8. *)
Lemma get_price_stale_minimum :
  SmartPhoneModel.get_price earlier_db phone "/" = Ok (EUR 10000, phone_priced10)
  ∧ SmartPhoneVariant.unit_price <$> SmartPhoneModel.variants sample_db phone_priced10
    = [EUR 10000; EUR 8000; EUR 12000]
  ∧ SmartPhoneModel.get_price sample_db phone_priced10 "/"
    = Ok (EUR 10000, phone_priced10)
  ∧ SmartPhoneModel.aggregate_Min_unit_price
      (SmartPhoneModel.variants sample_db phone_priced10) = Some 8000
  ∧ EUR 10000 ≠ EUR 8000.
Proof. repeat split. discriminate. Qed.

(** C7 (as amended): on a SmartPhoneModel without variants [get_price] does
    not fail; an instance that holds no cached price gets the default (empty)
    money value [Money()], which is cached on it, and an instance that holds one
    gets that. *)
Theorem get_price_no_variants {Request : Type} (db : DB) (self : SmartPhoneModel.t)
    (request : Request) :
  SmartPhoneModel.variants db self = [] →
  (SmartPhoneModel._price self = None →
     SmartPhoneModel.get_price db self request
     = Ok (Money None, SmartPhoneModel.set__price self (Money None)))
  ∧ (∀ cached, SmartPhoneModel._price self = Some cached →
       SmartPhoneModel.get_price db self request = Ok (cached, self))
  ∧ (∃ price self', SmartPhoneModel.get_price db self request = Ok (price, self')).
Proof.
  intros Hnone.
  assert (SmartPhoneModel._price self = None →
          SmartPhoneModel.get_price db self request
          = Ok (Money None, SmartPhoneModel.set__price self (Money None))) as Hfresh.
  { intros Hp. unfold SmartPhoneModel.get_price. by rewrite Hp, Hnone. }
  split; [exact Hfresh|]. split.
  - intros cached Hp. by apply get_price_cached.
  - destruct (SmartPhoneModel._price self) as [cached|] eqn:Hp.
    + exists cached, self. by apply get_price_cached.
    + eexists _, _. by apply Hfresh.
Qed.

(** Once its variants are withdrawn, a newly loaded phone has the empty
    price. *)
Lemma get_price_no_variants_sample :
  SmartPhoneModel.get_price later_db phone "/"
  = Ok (Money None, SmartPhoneModel.set__price phone (Money None)).
Proof.
  exact (proj1 (get_price_no_variants later_db phone "/" eq_refl) eq_refl).
Defined.

(** C7 as stated fails on an instance that already holds a price: the phone
    was priced 8 euros, its variants were withdrawn, and the same instance
    still answers 8 euros, which is not [Money()]. *)
Lemma get_price_stale_no_variants :
  SmartPhoneModel.get_price sample_db phone "/" = Ok (EUR 8000, phone_priced8)
  ∧ SmartPhoneModel.variants later_db phone_priced8 = []
  ∧ SmartPhoneModel.get_price later_db phone_priced8 "/"
    = Ok (EUR 8000, phone_priced8)
  ∧ EUR 8000 ≠ Money None.
Proof. repeat split. discriminate. Qed.

(** The price [get_price] returns is the one the instance then holds. *)
Lemma get_price_caches {Request : Type} (db : DB) (self self' : SmartPhoneModel.t)
    (request : Request) (price : AbstractMoney) :
  SmartPhoneModel.get_price db self request = Ok (price, self') →
  SmartPhoneModel._price self' = Some price.
Proof.
  unfold SmartPhoneModel.get_price.
  destruct (SmartPhoneModel._price self) as [cached|] eqn:Hp.
  - by intros [= <- <-].
  - destruct (exists_ _); [destruct (SmartPhoneModel.first _)|]; simpl;
      by intros [= <- <-].
Qed.

(** C8: the price a product answers does not depend on the request.  On the
    same Commodity, SmartCard, SmartPhoneVariant or SmartPhoneModel (and, for
    the model, the same database) any two requests get the same result; and
    a second call on the model, made after the first one has cached its
    price on the instance, answers the price of the first whatever its
    request. *)
Theorem get_price_ignores_request (R1 R2 : Type) (request1 : R1) (request2 : R2)
    (commodity : Commodity.t) (card : SmartCard.t) (variant : SmartPhoneVariant.t)
    (db : DB) (model : SmartPhoneModel.t) :
  Commodity.get_price commodity request1 = Commodity.get_price commodity request2
  ∧ SmartCard.get_price card request1 = SmartCard.get_price card request2
  ∧ SmartPhoneVariant.get_price variant request1
    = SmartPhoneVariant.get_price variant request2
  ∧ SmartPhoneModel.get_price db model request1
    = SmartPhoneModel.get_price db model request2
  ∧ (∀ price model',
       SmartPhoneModel.get_price db model request1 = Ok (price, model') →
       SmartPhoneModel.get_price db model' request2 = Ok (price, model')).
Proof.
  repeat split.
  intros price model' Hfirst.
  apply get_price_cached. by eapply get_price_caches.
Qed.

(** Two requests for the price of the sample phone, one after the other. *)
Lemma get_price_ignores_request_sample :
  SmartPhoneModel.get_price sample_db phone_priced8 "/cart"
  = Ok (EUR 8000, phone_priced8).
Proof.
  exact (proj2 (proj2 (proj2 (proj2
           (get_price_ignores_request SampleRequest SampleRequest "/" "/cart"
              (Commodity.Build 9 true "Cable" "cable" 2 1 (EUR 5000) "com-1" 4 None)
              (SmartCard.Build 8 true "Card" "card" 3 1 (EUR 7000) "SD" "80" "sd-1" 32 6)
              variant16 sample_db phone))))
         _ _ eq_refl).
Defined.

(** ** SmartPhoneModel.is_in_cart *)

(** The loop returns an item of the query set that has the wanted code. *)
Lemma for_cart_item_Some (qs : list (CartItem.t Z)) (code : option string)
    (cart_item : CartItem.t Z) :
  SmartPhoneModel.for_cart_item qs code = Some cart_item →
  cart_item ∈ qs ∧ CartItem.product_code cart_item = code.
Proof.
  induction qs as [|ci rest IH]; simpl; [done|].
  case_decide as Hcode.
  - intros [= <-]. split; [apply elem_of_cons; by left | done].
  - intros Hrest. destruct (IH Hrest) as [Hin Heq].
    split; [apply elem_of_cons; by right | done].
Qed.

(** The loop falls off the end exactly when no item has the wanted code. *)
Lemma for_cart_item_None (qs : list (CartItem.t Z)) (code : option string) :
  SmartPhoneModel.for_cart_item qs code = None
  ↔ ∀ cart_item, cart_item ∈ qs → CartItem.product_code cart_item ≠ code.
Proof.
  induction qs as [|ci rest IH]; simpl.
  - split; [|done]. intros _ cart_item Hin. by apply not_elem_of_nil in Hin.
  - case_decide as Hcode.
    + split; [done|]. intros Hall. exfalso.
      apply (Hall ci); [apply elem_of_cons; by left | done].
    + rewrite IH. split.
      * intros Hall cart_item Hin.
        apply elem_of_cons in Hin as [-> | Hin]; [done | by apply Hall].
      * intros Hall cart_item Hin. apply Hall. apply elem_of_cons. by right.
Qed.

(** C9: [is_in_cart] returns [None] when the keyword argument
    [product_code] is absent.  When it is given, a cart item that is returned
    is a row of the cart items' table that belongs to the given cart,
    references this product and has the given product code; and [None] is
    returned exactly when the table holds no such row. *)
Theorem is_in_cart_spec (db : DB) (self : SmartPhoneModel.t) (cart : Cart.t)
    (watched : bool) (kw : kwargs) :
  (kw !! "product_code" = None →
     SmartPhoneModel.is_in_cart db self cart watched kw = None)
  ∧ (∀ code, kw !! "product_code" = Some code →
       (∀ cart_item,
          SmartPhoneModel.is_in_cart db self cart watched kw = Some cart_item →
          cart_item ∈ myshop_cartitem db
          ∧ CartItem.cart cart_item = Cart.id cart
          ∧ CartItem.product cart_item = SmartPhoneModel.id self
          ∧ CartItem.product_code cart_item = code)
       ∧ (SmartPhoneModel.is_in_cart db self cart watched kw = None
          ↔ ∀ cart_item,
              cart_item ∈ myshop_cartitem db →
              CartItem.cart cart_item = Cart.id cart →
              CartItem.product cart_item = SmartPhoneModel.id self →
              CartItem.product_code cart_item ≠ code)).
Proof.
  unfold SmartPhoneModel.is_in_cart. split.
  - by intros ->.
  - intros code ->. split.
    + intros cart_item Hfound.
      apply for_cart_item_Some in Hfound as [Hin Hcode].
      apply list_elem_of_filter in Hin as [[Hcart Hproduct] Hin].
      done.
    + rewrite for_cart_item_None. split.
      * intros Hall cart_item Hin Hcart Hproduct.
        apply Hall. apply list_elem_of_filter. done.
      * intros Hall cart_item Hin.
        apply list_elem_of_filter in Hin as [[Hcart Hproduct] Hin].
        by apply Hall.
Qed.

(** The 32 GB phone is in the sample cart; without a product code nothing is
    looked for. *)
Lemma is_in_cart_sample :
  SmartPhoneModel.is_in_cart sample_db phone cart false ∅ = None
  ∧ CartItem.cart cart_item32 = Cart.id cart
  ∧ CartItem.product_code cart_item32 = Some "sp-32".
Proof.
  pose proof (is_in_cart_spec sample_db phone cart false ∅) as [Habsent _].
  pose proof (is_in_cart_spec sample_db phone cart false kw32) as [_ Hgiven].
  destruct (Hgiven (Some "sp-32") eq_refl) as [Hfound _].
  destruct (Hfound cart_item32 eq_refl) as (_ & Hcart & _ & Hcode).
  exact (conj (Habsent eq_refl) (conj Hcart Hcode)).
Defined.

(** ** The schema: unique columns *)

Section unique_column.
Context {A : Type} (f : A → Value).

(** Two rows that hold the same value in a unique column are one row. *)
Lemma unique_column_lookup (rows : list A) (i j : nat) (r1 r2 : A) :
  NoDup (filter (λ v, v ≠ NULL) (f <$> rows)) →
  rows !! i = Some r1 → rows !! j = Some r2 →
  f r1 = f r2 → f r1 ≠ NULL → i = j.
Proof.
  revert i j. induction rows as [|r rest IH]; intros i j Hnodup Hi Hj Heq Hnull.
  - by rewrite lookup_nil in Hi.
  - rewrite fmap_cons, filter_cons in Hnodup.
    assert (∀ k r', rest !! k = Some r' → f r' ≠ NULL →
                    f r' ∈ filter (λ v, v ≠ NULL) (f <$> rest)) as Hin.
    { intros k r' Hk Hr'. apply list_elem_of_filter. split; [done|].
      apply list_elem_of_fmap. exists r'. split; [done|].
      by eapply list_elem_of_lookup_2. }
    destruct i as [|i], j as [|j]; simplify_eq/=; [done | | |].
    + exfalso. case_decide; [|done].
      apply NoDup_cons in Hnodup as [Hnotin _].
      apply Hnotin. rewrite Heq. eapply Hin; [done | congruence].
    + exfalso. case_decide; [|congruence].
      apply NoDup_cons in Hnodup as [Hnotin _].
      apply Hnotin. rewrite <- Heq. by eapply Hin.
    + f_equal. apply (IH i j); try done.
      case_decide; [by apply NoDup_cons in Hnodup as [_ ?] | done].
Qed.

(** A lookup by a value of a unique column selects at most one row. *)
Lemma unique_column_filter (rows : list A) (v : Value) :
  NoDup (filter (λ v, v ≠ NULL) (f <$> rows)) → v ≠ NULL →
  (length (filter (λ r, f r = v) rows) ≤ 1)%nat.
Proof.
  intros Hnodup Hv. induction rows as [|r rest IH]; simpl; [lia|].
  rewrite fmap_cons, filter_cons in Hnodup. rewrite filter_cons.
  destruct (decide (f r = v)) as [Hr | Hr].
  - rewrite decide_True in Hnodup by congruence.
    apply NoDup_cons in Hnodup as [Hnotin _].
    destruct (filter (λ r, f r = v) rest) as [|r' more] eqn:Hsel; simpl; [lia|].
    exfalso. apply Hnotin.
    assert (r' ∈ filter (λ r, f r = v) rest) as Hin
      by (rewrite Hsel; apply elem_of_cons; by left).
    apply list_elem_of_filter in Hin as [Hr' Hin].
    apply list_elem_of_filter. split; [congruence|].
    apply list_elem_of_fmap. exists r'. split; [congruence | done].
  - apply IH. case_decide; [by apply NoDup_cons in Hnodup as [_ ?] | done].
Qed.
End unique_column.

Lemma valid_table_field (m : CreateModel.t) (rows : list Row) (f : Field.t) :
  valid_table m rows → f ∈ CreateModel.fields m → satisfies f rows.
Proof. unfold valid_table. rewrite Forall_forall. auto. Qed.

(** In a NOT NULL unique column no two rows agree, and a lookup by value
    selects at most one row. *)
Lemma unique_field_rows (f : Field.t) (rows : list Row) :
  satisfies f rows → Field.not_null f = true → Field.is_unique f = true →
  (∀ i j r1 r2, rows !! i = Some r1 → rows !! j = Some r2 →
     r1 !! Field.name f = r2 !! Field.name f → i = j)
  ∧ (∀ v, v ≠ NULL →
       (length (filter (λ r, r !! Field.name f = Some v) rows) ≤ 1)%nat).
Proof.
  intros [Hnn Hu] Hnotnull Hunique.
  specialize (Hnn Hnotnull). specialize (Hu Hunique). unfold column in *.
  split.
  - intros i j r1 r2 Hi Hj Heq.
    apply (unique_column_lookup (λ r, default NULL (r !! Field.name f))
             rows i j r1 r2); try done.
    + by rewrite Heq.
    + intros Hnull. apply Hnn.
      apply list_elem_of_fmap. exists r1. split; [by rewrite Hnull|].
      by eapply list_elem_of_lookup_2.
  - intros v Hv.
    rewrite (list_filter_iff _ (λ r, default NULL (r !! Field.name f) = v)).
    + by apply unique_column_filter.
    + intros r. destruct (r !! Field.name f) as [w|]; simpl; split; congruence.
Qed.

(** C6: the migration declares [product_code] unique (and NOT NULL) in the
    SmartCard, SmartPhoneVariant and Commodity tables, so in every valid state
    of one of these tables no two rows share a product code, and a lookup by
    product code selects at most one row. *)
Theorem product_code_unique (m : CreateModel.t) (rows : list Row) :
  m ∈ [SmartCard_model; SmartPhoneVariant_model; Commodity_model] →
  valid_table m rows →
  (∃ f, f ∈ CreateModel.fields m ∧ Field.name f = "product_code"
        ∧ Field.unique f = true ∧ Field.null f = false)
  ∧ (∀ i j r1 r2, rows !! i = Some r1 → rows !! j = Some r2 →
       r1 !! "product_code" = r2 !! "product_code" → i = j)
  ∧ (∀ code, (length (filter_product_code code rows) ≤ 1)%nat).
Proof.
  intros Hm Hvalid.
  assert (∃ f, f ∈ CreateModel.fields m ∧ Field.name f = "product_code"
               ∧ Field.unique f = true ∧ Field.null f = false) as Hdecl.
  { set_unfold in Hm. destruct Hm as [-> | [-> | [-> | []]]];
      exists (Field.Build "product_code" (Field.CharField 255) false true false);
      (split; [set_solver | done]). }
  split; [exact Hdecl|].
  destruct Hdecl as (f & Hf & Hname & Hunique & Hnull).
  destruct (unique_field_rows f rows) as [Hrows Hsel].
  - by eapply valid_table_field.
  - unfold Field.not_null. rewrite Hnull. apply orb_true_r.
  - unfold Field.is_unique. by rewrite Hunique.
  - rewrite Hname in Hrows, Hsel. split; [exact Hrows|].
    intros code. by apply Hsel.
Qed.

(** The sample variants' table is a valid state, and holds one "sp-32". *)
Lemma product_code_unique_sample :
  (length (filter_product_code "sp-32"
             (SmartPhoneVariant_row <$> myshop_smartphonevariant sample_db)) ≤ 1)%nat.
Proof.
  refine (proj2 (proj2 (product_code_unique SmartPhoneVariant_model
                          (SmartPhoneVariant_row <$> myshop_smartphonevariant sample_db)
                          _ _)) "sp-32").
  - apply elem_of_cons. right. apply elem_of_cons. by left.
  - apply (bool_decide_unpack _). vm_compute. exact I.
Defined.

(** ** Valid databases *)

Lemma filter_not_NULL_Text (codes : list string) :
  filter (λ v, v ≠ NULL) (Text <$> codes) = Text <$> codes.
Proof.
  induction codes as [|c rest IH]; [done|].
  rewrite fmap_cons, filter_cons, decide_True by done. by rewrite IH.
Qed.

Lemma filter_not_NULL_Integer (ids : list Z) :
  filter (λ v, v ≠ NULL) (Integer <$> ids) = Integer <$> ids.
Proof.
  induction ids as [|n rest IH]; [done|].
  rewrite fmap_cons, filter_cons, decide_True by done. by rewrite IH.
Qed.

(** In a valid database no two variants share a product code. *)
Lemma valid_db_unique_product_code (db : DB) :
  valid_db db →
  NoDup (SmartPhoneVariant.product_code <$> myshop_smartphonevariant db).
Proof.
  intros Hvalid.
  destruct (valid_table_field _ _
              (Field.Build "product_code" (Field.CharField 255) false true false)
              Hvalid ltac:(set_solver)) as [_ Hu].
  specialize (Hu eq_refl). unfold column in Hu. simpl in Hu.
  rewrite <- list_fmap_compose in Hu.
  apply (NoDup_fmap_1 Text).
  rewrite <- filter_not_NULL_Text, <- list_fmap_compose.
  exact Hu.
Qed.

(** In a valid database no two variants share a primary key. *)
Lemma valid_db_unique_id (db : DB) :
  valid_db db → NoDup (SmartPhoneVariant.id <$> myshop_smartphonevariant db).
Proof.
  intros Hvalid.
  destruct (valid_table_field _ _
              (Field.Build "id" Field.AutoField true false false)
              Hvalid ltac:(set_solver)) as [_ Hu].
  specialize (Hu eq_refl). unfold column in Hu. simpl in Hu.
  rewrite <- list_fmap_compose in Hu.
  apply (NoDup_fmap_1 Integer).
  rewrite <- filter_not_NULL_Integer, <- list_fmap_compose.
  exact Hu.
Qed.

(** ** SmartPhoneModel.get_product_variant *)

Section unique_key.
Context {A K : Type} `{!EqDecision K} (key : A → K).

Lemma filter_none (P : A → Prop) `{!∀ x, Decision (P x)} (l : list A) :
  (∀ x, x ∈ l → ¬ P x) → filter P l = [].
Proof.
  induction l as [|a rest IH]; intros Hall; [done|].
  rewrite filter_cons, decide_False.
  - apply IH. intros x Hx. apply Hall. apply elem_of_cons. by right.
  - apply Hall. apply elem_of_cons. by left.
Qed.

(** Rows of a table with a unique key are told apart by the key. *)
Lemma unique_key_inj (l : list A) (x y : A) :
  NoDup (key <$> l) → x ∈ l → y ∈ l → key x = key y → x = y.
Proof.
  induction l as [|a rest IH]; intros Hnodup Hx Hy Hkey.
  - by apply not_elem_of_nil in Hx.
  - rewrite fmap_cons in Hnodup. apply NoDup_cons in Hnodup as [Hnotin Hnodup].
    apply elem_of_cons in Hx as [-> | Hx]; apply elem_of_cons in Hy as [-> | Hy].
    + done.
    + exfalso. apply Hnotin. rewrite Hkey. apply list_elem_of_fmap. by exists y.
    + exfalso. apply Hnotin. rewrite <- Hkey. apply list_elem_of_fmap. by exists x.
    + by apply IH.
Qed.

(** A lookup by the key of a row selects that row and no other. *)
Lemma unique_key_select (l : list A) (x : A) :
  NoDup (key <$> l) → x ∈ l → filter (λ y, key y = key x) l = [x].
Proof.
  induction l as [|a rest IH]; intros Hnodup Hx.
  - by apply not_elem_of_nil in Hx.
  - rewrite fmap_cons in Hnodup. apply NoDup_cons in Hnodup as [Hnotin Hnodup].
    rewrite filter_cons. apply elem_of_cons in Hx as [-> | Hx].
    + rewrite decide_True by done. f_equal.
      apply filter_none. intros y Hy Hkey. apply Hnotin.
      rewrite <- Hkey. apply list_elem_of_fmap. by exists y.
    + rewrite decide_False; [by apply IH|].
      intros Hkey. apply Hnotin. rewrite Hkey.
      apply list_elem_of_fmap. by exists x.
Qed.

(** A part of the table has a unique key as well. *)
Lemma unique_key_filter (P : A → Prop) `{!∀ x, Decision (P x)} (l : list A) :
  NoDup (key <$> l) → NoDup (key <$> filter P l).
Proof.
  induction l as [|a rest IH]; intros Hnodup; [done|].
  rewrite fmap_cons in Hnodup. apply NoDup_cons in Hnodup as [Hnotin Hnodup].
  rewrite filter_cons. case_decide; [|by apply IH].
  rewrite fmap_cons. apply NoDup_cons. split; [|by apply IH].
  intros Hin. apply Hnotin.
  apply list_elem_of_fmap in Hin as (y & Hkey & Hy).
  apply list_elem_of_filter in Hy as [_ Hy].
  apply list_elem_of_fmap. by exists y.
Qed.
End unique_key.

(** The variant a product code names, in a valid database. *)
Lemma get_product_variant_found (db : DB) (self : SmartPhoneModel.t) (kw : kwargs)
    (v : SmartPhoneVariant.t) :
  valid_db db →
  kw !! "product_code" = Some (Some (SmartPhoneVariant.product_code v)) →
  v ∈ SmartPhoneModel.variants db self →
  SmartPhoneModel.get_product_variant db self kw = Ok v.
Proof.
  intros Hvalid Hkw Hv. unfold SmartPhoneModel.get_product_variant.
  rewrite Hkw. simpl.
  rewrite (list_filter_iff _
             (λ w, SmartPhoneVariant.product_code w = SmartPhoneVariant.product_code v)).
  - rewrite unique_key_select; [done | | done].
    apply unique_key_filter. by apply valid_db_unique_product_code.
  - intros w. split; congruence.
Qed.

(** No variant matches: the data layer's miss becomes the model's. *)
Lemma get_product_variant_missing (db : DB) (self : SmartPhoneModel.t) (kw : kwargs) :
  (∀ v, v ∈ SmartPhoneModel.variants db self →
        Some (SmartPhoneVariant.product_code v) ≠ default None (kw !! "product_code")) →
  SmartPhoneModel.get_product_variant db self kw
  = Raise (DoesNotExist SmartPhoneModelClass
             (Cause (DoesNotExist SmartPhoneVariantClass
                       (Message "matching query does not exist")))).
Proof.
  intros Hnone. unfold SmartPhoneModel.get_product_variant.
  by rewrite filter_none.
Qed.

(** C3: in a valid database, [get_product_variant(product_code=c)] on a
    SmartPhoneModel returns the variant of the model whose product code is
    [c] when there is one, and when there is none it raises
    [SmartPhoneModel.DoesNotExist], made from the
    [SmartPhoneVariant.DoesNotExist] of the failed lookup. *)
Theorem get_product_variant_spec (db : DB) (self : SmartPhoneModel.t) (kw : kwargs)
    (c : string) :
  valid_db db →
  kw !! "product_code" = Some (Some c) →
  (∀ v, v ∈ SmartPhoneModel.variants db self →
        SmartPhoneVariant.product_code v = c →
        SmartPhoneModel.get_product_variant db self kw = Ok v)
  ∧ ((∀ v, v ∈ SmartPhoneModel.variants db self →
           SmartPhoneVariant.product_code v ≠ c) →
     SmartPhoneModel.get_product_variant db self kw
     = Raise (DoesNotExist SmartPhoneModelClass
                (Cause (DoesNotExist SmartPhoneVariantClass
                          (Message "matching query does not exist"))))).
Proof.
  intros Hvalid Hkw. split.
  - intros v Hv <-. by apply get_product_variant_found.
  - intros Hnone. apply get_product_variant_missing.
    rewrite Hkw. simpl. intros v Hv [= Hc]. by apply (Hnone v).
Qed.

Lemma sample_db_valid : valid_db sample_db.
Proof. apply (bool_decide_unpack _). vm_compute. exact I. Qed.

(** The sample phone has a 32 GB variant and no 128 GB variant. *)
Lemma get_product_variant_sample :
  SmartPhoneModel.get_product_variant sample_db phone kw32 = Ok variant32
  ∧ SmartPhoneModel.get_product_variant sample_db phone kw128
    = Raise (DoesNotExist SmartPhoneModelClass
               (Cause (DoesNotExist SmartPhoneVariantClass
                         (Message "matching query does not exist")))).
Proof.
  split.
  - apply (proj1 (get_product_variant_spec sample_db phone kw32 "sp-32"
                    sample_db_valid eq_refl)).
    + apply elem_of_cons. right. apply elem_of_cons. by left.
    + reflexivity.
  - apply (proj2 (get_product_variant_spec sample_db phone kw128 "sp-128"
                    sample_db_valid eq_refl)).
    intros v Hv.
    change (SmartPhoneModel.variants sample_db phone)
      with [variant16; variant32; variant64] in Hv.
    set_unfold in Hv. destruct Hv as [-> | [-> | [-> | []]]]; discriminate.
Defined.

(** ** SmartPhoneModel.deduct_from_stock *)

(** In a valid database a variant's primary key and its product code name
    the same row. *)
Lemma valid_db_id_iff_product_code (db : DB) (v w : SmartPhoneVariant.t) :
  valid_db db →
  v ∈ myshop_smartphonevariant db → w ∈ myshop_smartphonevariant db →
  SmartPhoneVariant.id w = SmartPhoneVariant.id v
  ↔ SmartPhoneVariant.product_code w = SmartPhoneVariant.product_code v.
Proof.
  intros Hvalid Hv Hw. split; intros Hsame.
  - f_equal. eapply (unique_key_inj SmartPhoneVariant.id); try done.
    by apply valid_db_unique_id.
  - f_equal. eapply (unique_key_inj SmartPhoneVariant.product_code); try done.
    by apply valid_db_unique_product_code.
Qed.

(** The stand-in framework deducts from the receiver only. *)
Lemma sample_mixin_receiver_only : deducts_from_receiver_only sample_mixin.
Proof.
  intros db v quantity db' [= <-]. split; [done|]. simpl.
  apply Forall2_fmap_r, Forall_Forall2_diag, Forall_forall.
  intros w _. simpl.
  destruct (decide (SmartPhoneVariant.id w = SmartPhoneVariant.id v)); [|done].
  by repeat split.
Qed.

(** C5: in a valid database, for a product code [c] that names the variant
    [v] of the model, [deduct_from_stock(quantity, product_code=c)] is the
    framework's [v.deduct_from_stock(quantity)] and nothing else; so with a
    framework that deducts from the receiver only, the call changes nothing
    but the stock of the variant with code [c]: every other variant's row and
    the other tables are as before.  The model instance is read, never
    assigned. *)
Theorem deduct_from_stock_frame {mixin : AvailableProductMixin} (db : DB)
    (self : SmartPhoneModel.t) (quantity : Z) (kw : kwargs) (c : string)
    (v : SmartPhoneVariant.t) :
  valid_db db →
  kw !! "product_code" = Some (Some c) →
  v ∈ SmartPhoneModel.variants db self →
  SmartPhoneVariant.product_code v = c →
  SmartPhoneModel.deduct_from_stock db self quantity kw
  = variant_deduct_from_stock db v quantity
  ∧ (deducts_from_receiver_only mixin →
     ∀ db', SmartPhoneModel.deduct_from_stock db self quantity kw = Ok db' →
            stock_changed_only (λ w, SmartPhoneVariant.product_code w = c) db db').
Proof.
  intros Hvalid Hkw Hv <-.
  assert (SmartPhoneModel.deduct_from_stock db self quantity kw
          = variant_deduct_from_stock db v quantity) as Hdelegates.
  { unfold SmartPhoneModel.deduct_from_stock.
    by rewrite (get_product_variant_found db self kw v). }
  split; [exact Hdelegates|].
  intros Hlocal db' Hdone. rewrite Hdelegates in Hdone.
  destruct (Hlocal db v quantity db' Hdone) as [Hcart Hrows].
  split; [exact Hcart|].
  apply list_elem_of_filter in Hv as [_ Hv].
  apply Forall2_same_length_lookup in Hrows as [Hlen Hrows].
  apply Forall2_same_length_lookup. split; [exact Hlen|].
  intros i w w' Hw Hw'. specialize (Hrows i w w' Hw Hw').
  apply list_elem_of_lookup_2 in Hw.
  pose proof (valid_db_id_iff_product_code db v w Hvalid Hv Hw) as Hiff.
  destruct (decide (SmartPhoneVariant.id w = SmartPhoneVariant.id v)) as [Hid | Hid].
  - rewrite decide_True by (by apply Hiff). exact Hrows.
  - rewrite decide_False by (by rewrite <- Hiff). exact Hrows.
Qed.

(** Two of the three 32 GB phones are sold: the other rows stay as they
    were. *)
Lemma deduct_from_stock_sample :
  SmartPhoneModel.deduct_from_stock (mixin := sample_mixin)
    sample_db phone 2 kw32
  = Ok {| myshop_smartphonevariant :=
            [variant16; SmartPhoneVariant.Build 2 1 "sp-32" (EUR 8000) 32 1;
             variant64; other_variant];
          myshop_cartitem := myshop_cartitem sample_db |}
  ∧ ∀ db', SmartPhoneModel.deduct_from_stock (mixin := sample_mixin)
             sample_db phone 2 kw32 = Ok db' →
           stock_changed_only (λ w, SmartPhoneVariant.product_code w = "sp-32")
             sample_db db'.
Proof.
  pose proof (@deduct_from_stock_frame sample_mixin sample_db phone 2 kw32 "sp-32"
                variant32 sample_db_valid eq_refl) as Hframe.
  destruct Hframe as [Hdelegates Hlocal].
  - apply elem_of_cons. right. apply elem_of_cons. by left.
  - reflexivity.
  - split.
    + rewrite Hdelegates. reflexivity.
    + exact (Hlocal sample_mixin_receiver_only).
Defined.

(** ** OrderItem.populate_from_cart_item *)

Section populate_from_cart_item.
Context {Request P : Type} {base : OrderItem.BaseOrderItem Request P}
  {model : ProductModel P}.
Implicit Types (db : DB) (self : OrderItem.t) (cart_item : CartItem.t P)
  (request : Request).

(** What the framework's step raises, the method raises. *)
Lemma populate_from_cart_item_super_raises db self cart_item request e :
  OrderItem.super_populate_from_cart_item db self cart_item request = Raise e →
  OrderItem.populate_from_cart_item db self cart_item request = Raise e.
Proof.
  intros Hsuper. unfold OrderItem.populate_from_cart_item. by rewrite Hsuper.
Qed.

(** After the framework's step, the method is the [try] block. *)
Lemma populate_from_cart_item_after_super db self cart_item request db1 self1 :
  OrderItem.super_populate_from_cart_item db self cart_item request = Ok (db1, self1) →
  OrderItem.populate_from_cart_item db self cart_item request
  = match get_product_variant db1 (CartItem.product cart_item)
            {[ "product_code" := CartItem.product_code cart_item ]} with
    | Ok variant =>
        Ok (db1, OrderItem.set__unit_price self1 (Decimal_of (unit_price variant)))
    | Raise e =>
        if is_KeyError e || is_ObjectDoesNotExist e
        then Raise (DoesNotExist CartItemClass (Cause e))
        else Raise e
    end.
Proof.
  intros Hsuper. unfold OrderItem.populate_from_cart_item. rewrite Hsuper. simpl.
  by destruct (get_product_variant _ _ _).
Qed.

(** After the framework's step, [CartItem.DoesNotExist] is raised exactly
    for a [KeyError] or an [ObjectDoesNotExist] of the variant's resolution,
    and it is made from that exception. *)
Lemma populate_from_cart_item_raises_iff db self cart_item request db1 self1 args :
  OrderItem.super_populate_from_cart_item db self cart_item request = Ok (db1, self1) →
  OrderItem.populate_from_cart_item db self cart_item request
  = Raise (DoesNotExist CartItemClass args)
  ↔ ∃ e, args = Cause e
         ∧ get_product_variant db1 (CartItem.product cart_item)
             {[ "product_code" := CartItem.product_code cart_item ]} = Raise e
         ∧ (is_KeyError e = true ∨ is_ObjectDoesNotExist e = true).
Proof.
  intros Hsuper.
  rewrite (populate_from_cart_item_after_super _ _ _ _ _ _ Hsuper).
  destruct (get_product_variant _ _ _) as [variant | e].
  - split; [done|]. by intros (e & _ & ? & _).
  - destruct (is_KeyError e || is_ObjectDoesNotExist e) eqn:Hcaught.
    + apply orb_true_iff in Hcaught. split.
      * intros [= <-]. by exists e.
      * by intros (e' & -> & [= <-] & _).
    + apply orb_false_iff in Hcaught as [Hkey Hmissing]. split.
      * intros [= ->]. done.
      * intros (e' & _ & [= <-] & [? | ?]); congruence.
Qed.

(** C4: when [populate_from_cart_item] succeeds, the order item's unit price
    is the unit price of the variant that the cart item's product code
    resolves to (in the database as the framework's step left it); the rest of
    the order item is as that step left it. *)
Theorem populate_from_cart_item_unit_price db self cart_item request db' self' :
  OrderItem.populate_from_cart_item db self cart_item request = Ok (db', self') →
  ∃ self1 variant,
    OrderItem.super_populate_from_cart_item db self cart_item request = Ok (db', self1)
    ∧ get_product_variant db' (CartItem.product cart_item)
        {[ "product_code" := CartItem.product_code cart_item ]} = Ok variant
    ∧ self' = OrderItem.set__unit_price self1 (Decimal_of (unit_price variant))
    ∧ OrderItem._unit_price self' = Some (amount (unit_price variant)).
Proof.
  intros Hdone.
  destruct (OrderItem.super_populate_from_cart_item db self cart_item request)
    as [[db1 self1] | e] eqn:Hsuper.
  - rewrite (populate_from_cart_item_after_super _ _ _ _ _ _ Hsuper) in Hdone.
    destruct (get_product_variant _ _ _) as [variant | e] eqn:Hvariant.
    + injection Hdone as <- <-. by exists self1, variant.
    + by destruct (is_KeyError e || is_ObjectDoesNotExist e).
  - by rewrite (populate_from_cart_item_super_raises _ _ _ _ _ Hsuper) in Hdone.
Qed.
End populate_from_cart_item.


(** What the stand-in's step does with the sample cart items. *)
Example super_populate_mismatch :
  OrderItem.super_populate_from_cart_item (BaseOrderItem := sample_base_order_item)
    sample_db order_item loaded_cart_item_mismatch "/checkout"
  = Ok (sold32_once_db, order_item_mismatch_step).
Proof. vm_compute. reflexivity. Qed.

Example super_populate32 :
  OrderItem.super_populate_from_cart_item (BaseOrderItem := sample_base_order_item)
    sample_db order_item loaded_cart_item32 "/checkout"
  = Ok (sold32_db, order_item32).
Proof. vm_compute. reflexivity. Qed.

Lemma sold32_db_valid : valid_db sold32_db.
Proof. apply (bool_decide_unpack _). vm_compute. exact I. Qed.

Lemma sold32_once_db_valid : valid_db sold32_once_db.
Proof. apply (bool_decide_unpack _). vm_compute. exact I. Qed.

Lemma mismatch_names_no_variant (v : SmartPhoneVariant.t) :
  v ∈ SmartPhoneModel.variants sold32_once_db
        (CartItem.product loaded_cart_item_mismatch) →
  Some (SmartPhoneVariant.product_code v)
  ≠ CartItem.product_code loaded_cart_item_mismatch.
Proof.
  change (SmartPhoneModel.variants sold32_once_db
            (CartItem.product loaded_cart_item_mismatch))
    with [variant16; SmartPhoneVariant.Build 2 1 "sp-32" (EUR 8000) 32 2; variant64].
  intros Hv.
  apply elem_of_cons in Hv as [-> | Hv]; [discriminate|].
  apply elem_of_cons in Hv as [-> | Hv]; [discriminate|].
  apply elem_of_cons in Hv as [-> | Hv]; [discriminate|].
  by apply not_elem_of_nil in Hv.
Qed.



Example populate_from_cart_item32 :
  OrderItem.populate_from_cart_item (base := sample_base_order_item)
    sample_db order_item loaded_cart_item32 "/checkout"
  = Ok (sold32_db, order_item32).
Proof. vm_compute. reflexivity. Qed.

Example populate_from_cart_item16 :
  OrderItem.populate_from_cart_item (base := sample_base_order_item)
    sample_db order_item loaded_cart_item16 "/checkout"
  = Ok (sold16_db, order_item16).
Proof. vm_compute. reflexivity. Qed.

(** The order item for the 16 GB phone costs what that variant costs, 10
    euros, not the 8 euros the model starts at. *)
Lemma populate_from_cart_item_sample :
  ∃ variant,
    get_product_variant sold16_db phone {[ "product_code" := Some "sp-16" ]}
    = Ok variant
    ∧ OrderItem._unit_price order_item16 = Some (amount (unit_price variant)).
Proof.
  destruct (populate_from_cart_item_unit_price (base := sample_base_order_item)
              sample_db order_item loaded_cart_item16 "/checkout" sold16_db
              order_item16 populate_from_cart_item16)
    as (self1 & variant & Hsuper & Hvariant & Hself & Hprice).
  by exists variant.
Defined.

(** * Further properties of the models *)

(** ** get_product_variant and get_product_variants *)

Lemma default_None_Some (kw : kwargs) (c : string) :
  default None (kw !! "product_code") = Some c → kw !! "product_code" = Some (Some c).
Proof. destruct (kw !! "product_code") as [[c'|]|]; simpl; congruence. Qed.

(** What [get_one] returns is the only row selected. *)
Lemma get_one_Ok {A : Type} (cls : ModelClass) (rows : list A) (row : A) :
  get_one cls rows = Ok row → rows = [row].
Proof. destruct rows as [|r [|r' rest]]; simpl; congruence. Qed.

Lemma get_product_variant_Ok (db : DB) (self : SmartPhoneModel.t) (kw : kwargs)
    (v : SmartPhoneVariant.t) :
  SmartPhoneModel.get_product_variant db self kw = Ok v →
  filter (λ w, Some (SmartPhoneVariant.product_code w)
               = default None (kw !! "product_code"))
    (SmartPhoneModel.variants db self) = [v].
Proof.
  unfold SmartPhoneModel.get_product_variant, try_except.
  destruct (get_one _ _) as [row | e] eqn:Hget.
  - intros [= ->]. by apply get_one_Ok in Hget.
  - by destruct e as [| | [] | | |].
Qed.

(** X1: a variant that [get_product_variant] returns is one of the model's
    variants ([get_product_variants]), the keyword argument [product_code] is
    its product code, and no other variant of the model has that code; this
    holds in every database, valid or not. *)
Theorem get_product_variant_sound (db : DB) (self : SmartPhoneModel.t) (kw : kwargs)
    (v : SmartPhoneVariant.t) :
  SmartPhoneModel.get_product_variant db self kw = Ok v →
  v ∈ SmartPhoneModel.get_product_variants db self
  ∧ kw !! "product_code" = Some (Some (SmartPhoneVariant.product_code v))
  ∧ (∀ w, w ∈ SmartPhoneModel.get_product_variants db self →
          SmartPhoneVariant.product_code w = SmartPhoneVariant.product_code v →
          w = v).
Proof.
  intros Hget. apply get_product_variant_Ok in Hget.
  assert (v ∈ filter (λ w, Some (SmartPhoneVariant.product_code w)
                           = default None (kw !! "product_code"))
                (SmartPhoneModel.variants db self)) as Hv
    by (rewrite Hget; apply elem_of_cons; by left).
  apply list_elem_of_filter in Hv as [Hcode Hv].
  split; [exact Hv|]. split; [by apply default_None_Some|].
  intros w Hw Hsame.
  assert (w ∈ [v]) as Hin.
  { rewrite <- Hget. apply list_elem_of_filter. split; [congruence | exact Hw]. }
  apply elem_of_cons in Hin as [-> | Hin]; [done|].
  by apply not_elem_of_nil in Hin.
Qed.

Lemma get_product_variant_sound_sample :
  variant32 ∈ SmartPhoneModel.get_product_variants sample_db phone
  ∧ kw32 !! "product_code" = Some (Some "sp-32").
Proof.
  destruct (get_product_variant_sound sample_db phone kw32 variant32 eq_refl)
    as (Hin & Hkw & _).
  exact (conj Hin Hkw).
Defined.

(** X2: in a valid database, looking a variant up by its own product code
    returns that variant exactly when it is one of the model's variants. *)
Theorem get_product_variant_round_trip (db : DB) (self : SmartPhoneModel.t)
    (v : SmartPhoneVariant.t) :
  valid_db db →
  v ∈ SmartPhoneModel.get_product_variants db self
  ↔ SmartPhoneModel.get_product_variant db self
      {[ "product_code" := Some (SmartPhoneVariant.product_code v) ]} = Ok v.
Proof.
  intros Hvalid. split.
  - intros Hv. apply get_product_variant_found; [done | | done].
    apply lookup_singleton_eq.
  - intros Hget. apply get_product_variant_Ok in Hget.
    assert (v ∈ [v]) as Hin by (apply elem_of_cons; by left).
    rewrite <- Hget in Hin. by apply list_elem_of_filter in Hin as [_ Hv].
Qed.

Lemma get_product_variant_round_trip_sample :
  SmartPhoneModel.get_product_variant sample_db phone
    {[ "product_code" := Some (SmartPhoneVariant.product_code variant64) ]}
  = Ok variant64.
Proof.
  apply (proj1 (get_product_variant_round_trip sample_db phone variant64
                  sample_db_valid)).
  apply elem_of_cons. right. apply elem_of_cons. right. apply elem_of_cons. by left.
Defined.

(** X3: without a product code (the keyword argument absent, or [None])
    [get_product_variant] finds nothing, whatever the database holds: it
    raises [SmartPhoneModel.DoesNotExist]. *)
Theorem get_product_variant_without_code (db : DB) (self : SmartPhoneModel.t)
    (kw : kwargs) :
  kw !! "product_code" = None ∨ kw !! "product_code" = Some None →
  SmartPhoneModel.get_product_variant db self kw
  = Raise (DoesNotExist SmartPhoneModelClass
             (Cause (DoesNotExist SmartPhoneVariantClass
                       (Message "matching query does not exist")))).
Proof.
  intros Hkw. apply get_product_variant_missing.
  intros v _. by destruct Hkw as [-> | ->].
Qed.

Lemma get_product_variant_without_code_sample :
  SmartPhoneModel.get_product_variant sample_db phone kw_empty
  = SmartPhoneModel.get_product_variant sample_db phone kw_none.
Proof.
  rewrite (get_product_variant_without_code sample_db phone kw_empty).
  - rewrite (get_product_variant_without_code sample_db phone kw_none).
    + reflexivity.
    + right. vm_compute. reflexivity.
  - left. vm_compute. reflexivity.
Defined.

(** How [get_product_variant] fails: on no row, or on several. *)
Lemma get_product_variant_raises (db : DB) (self : SmartPhoneModel.t)
    (kw : kwargs) (e : Exception) :
  SmartPhoneModel.get_product_variant db self kw = Raise e →
  (e = DoesNotExist SmartPhoneModelClass
         (Cause (DoesNotExist SmartPhoneVariantClass
                   (Message "matching query does not exist")))
   ∧ ∀ v, v ∈ SmartPhoneModel.variants db self →
          Some (SmartPhoneVariant.product_code v) ≠ default None (kw !! "product_code"))
  ∨ (e = MultipleObjectsReturned SmartPhoneVariantClass ∧ ¬ valid_db db).
Proof.
  unfold SmartPhoneModel.get_product_variant, try_except, get_one.
  destruct (filter _ (SmartPhoneModel.variants db self)) as [|a [|b rest]] eqn:Hsel;
    simpl; intros [= <-].
  - left. split; [done|]. intros v Hv Hcode.
    assert (v ∈ filter (λ w, Some (SmartPhoneVariant.product_code w)
                             = default None (kw !! "product_code"))
                  (SmartPhoneModel.variants db self)) as Hin
      by (by apply list_elem_of_filter).
    rewrite Hsel in Hin. by apply not_elem_of_nil in Hin.
  - right. split; [done|]. intros Hvalid.
    assert (NoDup (SmartPhoneVariant.product_code
                     <$> filter (λ w, Some (SmartPhoneVariant.product_code w)
                                      = default None (kw !! "product_code"))
                           (SmartPhoneModel.variants db self))) as Hnodup.
    { apply unique_key_filter, unique_key_filter.
      by apply valid_db_unique_product_code. }
    assert (∀ w, w ∈ a :: b :: rest →
                 Some (SmartPhoneVariant.product_code w)
                 = default None (kw !! "product_code")) as Hcodes.
    { intros w Hw. rewrite <- Hsel in Hw.
      by apply list_elem_of_filter in Hw as [? _]. }
    rewrite Hsel in Hnodup. rewrite !fmap_cons in Hnodup.
    apply NoDup_cons in Hnodup as [Hnotin _]. apply Hnotin.
    apply elem_of_cons. left.
    assert (Some (SmartPhoneVariant.product_code a)
            = Some (SmartPhoneVariant.product_code b)) as [= ->]; [|done].
    rewrite (Hcodes a), (Hcodes b); [done | |].
    + apply elem_of_cons. right. apply elem_of_cons. by left.
    + apply elem_of_cons. by left.
Qed.

(** X4: the only ways [get_product_variant] fails.  It raises
    [SmartPhoneModel.DoesNotExist] when no variant of the model has the
    code, and the data layer's [MultipleObjectsReturned] when several have,
    which no valid database allows; the lookup's own
    [SmartPhoneVariant.DoesNotExist] never leaves the method. *)
Theorem get_product_variant_failures (db : DB) (self : SmartPhoneModel.t)
    (kw : kwargs) (e : Exception) :
  SmartPhoneModel.get_product_variant db self kw = Raise e →
  (∀ args, e ≠ DoesNotExist SmartPhoneVariantClass args)
  ∧ ((e = DoesNotExist SmartPhoneModelClass
            (Cause (DoesNotExist SmartPhoneVariantClass
                      (Message "matching query does not exist")))
      ∧ ∀ v, v ∈ SmartPhoneModel.variants db self →
             Some (SmartPhoneVariant.product_code v)
             ≠ default None (kw !! "product_code"))
     ∨ (e = MultipleObjectsReturned SmartPhoneVariantClass ∧ ¬ valid_db db)).
Proof.
  intros Hraise. apply get_product_variant_raises in Hraise as Hcases.
  split; [|exact Hcases].
  intros args ->. by destruct Hcases as [[? _] | [? _]].
Qed.

Lemma get_product_variant_failures_sample :
  ∃ e, SmartPhoneModel.get_product_variant sample_db phone kw128 = Raise e
       ∧ ∀ args, e ≠ DoesNotExist SmartPhoneVariantClass args.
Proof.
  eexists. split; [reflexivity|].
  exact (proj1 (get_product_variant_failures sample_db phone kw128 _ eq_refl)).
Defined.

(** ** get_availability and deduct_from_stock *)

(** X5: [get_availability] is the availability the framework reports for the
    variant the product code names, asked with the same request; for a code
    that names no variant of the model it raises
    [SmartPhoneModel.DoesNotExist], whatever the framework would answer. *)
Theorem get_availability_spec {mixin : AvailableProductMixin} {Request : Type}
    (db : DB) (self : SmartPhoneModel.t) (request : Request) (kw : kwargs) :
  (∀ v, valid_db db →
        kw !! "product_code" = Some (Some (SmartPhoneVariant.product_code v)) →
        v ∈ SmartPhoneModel.variants db self →
        SmartPhoneModel.get_availability db self request kw
        = variant_get_availability db v request)
  ∧ ((∀ v, v ∈ SmartPhoneModel.variants db self →
           Some (SmartPhoneVariant.product_code v)
           ≠ default None (kw !! "product_code")) →
     SmartPhoneModel.get_availability db self request kw
     = Raise (DoesNotExist SmartPhoneModelClass
                (Cause (DoesNotExist SmartPhoneVariantClass
                          (Message "matching query does not exist"))))).
Proof.
  unfold SmartPhoneModel.get_availability. split.
  - intros v Hvalid Hkw Hv. by rewrite (get_product_variant_found db self kw v).
  - intros Hnone. by rewrite get_product_variant_missing.
Qed.

Lemma sample_phone_has_no_128 (v : SmartPhoneVariant.t) :
  v ∈ SmartPhoneModel.variants sample_db phone →
  Some (SmartPhoneVariant.product_code v) ≠ default None (kw128 !! "product_code").
Proof.
  change (SmartPhoneModel.variants sample_db phone)
    with [variant16; variant32; variant64].
  change (default None (kw128 !! "product_code")) with (Some "sp-128").
  intros Hv.
  apply elem_of_cons in Hv as [-> | Hv]; [discriminate|].
  apply elem_of_cons in Hv as [-> | Hv]; [discriminate|].
  apply elem_of_cons in Hv as [-> | Hv]; [discriminate|].
  by apply not_elem_of_nil in Hv.
Qed.

(** Three 32 GB phones are available, and no 128 GB phone is known. *)
Lemma get_availability_sample :
  SmartPhoneModel.get_availability (mixin := sample_mixin) sample_db phone "/" kw32
  = Ok 3
  ∧ SmartPhoneModel.get_availability (mixin := sample_mixin) sample_db phone "/" kw128
    = Raise (DoesNotExist SmartPhoneModelClass
               (Cause (DoesNotExist SmartPhoneVariantClass
                         (Message "matching query does not exist")))).
Proof.
  split.
  - rewrite (proj1 (@get_availability_spec sample_mixin string sample_db
                      phone "/" kw32) variant32 sample_db_valid).
    + reflexivity.
    + vm_compute. reflexivity.
    + apply elem_of_cons. right. apply elem_of_cons. by left.
  - apply (proj2 (@get_availability_spec sample_mixin string sample_db
                    phone "/" kw128)).
    apply sample_phone_has_no_128.
Defined.

(** X6: for a product code that names no variant of the model (or for no
    product code at all) [deduct_from_stock] raises
    [SmartPhoneModel.DoesNotExist] with every framework: nothing is deducted
    and no database is written. *)
Theorem deduct_from_stock_unknown_code {mixin : AvailableProductMixin} (db : DB)
    (self : SmartPhoneModel.t) (quantity : Z) (kw : kwargs) :
  (∀ v, v ∈ SmartPhoneModel.variants db self →
        Some (SmartPhoneVariant.product_code v) ≠ default None (kw !! "product_code")) →
  SmartPhoneModel.deduct_from_stock db self quantity kw
  = Raise (DoesNotExist SmartPhoneModelClass
             (Cause (DoesNotExist SmartPhoneVariantClass
                       (Message "matching query does not exist")))).
Proof.
  intros Hnone. unfold SmartPhoneModel.deduct_from_stock.
  by rewrite get_product_variant_missing.
Qed.

Lemma deduct_from_stock_unknown_code_sample :
  SmartPhoneModel.deduct_from_stock (mixin := sample_mixin) sample_db phone 1 kw128
  = Raise (DoesNotExist SmartPhoneModelClass
             (Cause (DoesNotExist SmartPhoneVariantClass
                       (Message "matching query does not exist")))).
Proof.
  apply (@deduct_from_stock_unknown_code sample_mixin sample_db phone 1 kw128).
  apply sample_phone_has_no_128.
Defined.

(** ** get_price: what every call does *)

Lemma set__price_cached (self : SmartPhoneModel.t) (price : AbstractMoney) :
  SmartPhoneModel._price self = Some price →
  SmartPhoneModel.set__price self price = self.
Proof. destruct self. simpl. by intros ->. Qed.

Lemma get_price_no_variants_fresh {Request : Type} (db : DB)
    (self : SmartPhoneModel.t) (request : Request) :
  SmartPhoneModel._price self = None →
  SmartPhoneModel.variants db self = [] →
  SmartPhoneModel.get_price db self request
  = Ok (Money None, SmartPhoneModel.set__price self (Money None)).
Proof.
  intros Hp Hnone. unfold SmartPhoneModel.get_price. by rewrite Hp, Hnone.
Qed.

(** X7: [get_price] never raises.  On every instance and every database it
    returns a price, the instance afterwards is the instance before with
    that price as its [_price] and every column as it was, and from then on
    every call on the instance returns the same price and leaves it as it is,
    whatever the database and the request. *)
Theorem get_price_returns {Request : Type} (db : DB) (self : SmartPhoneModel.t)
    (request : Request) :
  ∃ price,
    SmartPhoneModel.get_price db self request
    = Ok (price, SmartPhoneModel.set__price self price)
    ∧ ∀ (db' : DB) (R' : Type) (request' : R'),
        SmartPhoneModel.get_price db' (SmartPhoneModel.set__price self price) request'
        = Ok (price, SmartPhoneModel.set__price self price).
Proof.
  assert (∀ price (db' : DB) (R' : Type) (request' : R'),
            SmartPhoneModel.get_price db' (SmartPhoneModel.set__price self price) request'
            = Ok (price, SmartPhoneModel.set__price self price)) as Hstable
    by (intros; by apply get_price_cached).
  destruct (SmartPhoneModel._price self) as [cached|] eqn:Hp.
  - exists cached. split; [|by apply Hstable].
    rewrite (set__price_cached self cached Hp). by apply get_price_cached.
  - destruct (SmartPhoneModel.variants db self) as [|v vs] eqn:Hvs.
    + exists (Money None). split; [|by apply Hstable].
      by apply get_price_no_variants_fresh.
    + destruct (first_is_Some (SmartPhoneModel.variants db self)) as [v0 Hfirst];
        [by rewrite Hvs|].
      eexists. split; [by apply (get_price_fresh db self request v0)|].
      by apply Hstable.
Qed.

(** ** get_price: the order of the stored rows *)

(** [MIN] does not depend on the order of the column. *)
Lemma Min_Permutation (column column' : list Decimal) :
  column ≡ₚ column' → Min column = Min column'.
Proof.
  induction 1 as [|d l l' _ IH|d d' l|l l' l'' _ IH _ IH']; simpl.
  - done.
  - by rewrite IH.
  - destruct d as [|a], d' as [|b]; try done.
    destruct (Min l) as [m|]; f_equal; lia.
  - by rewrite IH.
Qed.

(** With unique primary keys, [first] does not depend on the order of the
    query set. *)
Lemma first_Permutation (qs qs' : list SmartPhoneVariant.t) :
  qs ≡ₚ qs' → NoDup (SmartPhoneVariant.id <$> qs) →
  SmartPhoneModel.first qs = SmartPhoneModel.first qs'.
Proof.
  intros Hperm Hnodup.
  destruct qs as [|q rest].
  { apply Permutation.Permutation_nil in Hperm. by subst. }
  destruct (first_is_Some (q :: rest)) as [v Hv]; [done|].
  destruct (first_is_Some qs') as [v' Hv'].
  { intros ->. symmetry in Hperm. by apply Permutation.Permutation_nil in Hperm. }
  rewrite Hv, Hv'. f_equal.
  apply first_least in Hv as [Hin Hleast], Hv' as [Hin' Hleast'].
  rewrite <- Hperm in Hin'.
  apply (unique_key_inj SmartPhoneVariant.id (q :: rest)); try done.
  assert (v ∈ qs') as Hinv by (by rewrite <- Hperm).
  pose proof (Hleast v' Hin'). pose proof (Hleast' v Hinv). lia.
Qed.

(** X8: in a valid database the price [get_price] answers does not depend on
    the order in which the variants' rows are stored: two databases that hold
    the same rows give the same result. *)
Theorem get_price_order_independent {Request : Type} (db db' : DB)
    (self : SmartPhoneModel.t) (request : Request) :
  valid_db db →
  myshop_smartphonevariant db ≡ₚ myshop_smartphonevariant db' →
  SmartPhoneModel.get_price db self request
  = SmartPhoneModel.get_price db' self request.
Proof.
  intros Hvalid Hrows.
  assert (SmartPhoneModel.variants db self ≡ₚ SmartPhoneModel.variants db' self)
    as Hperm by (unfold SmartPhoneModel.variants; by rewrite Hrows).
  assert (SmartPhoneModel.first (SmartPhoneModel.variants db self)
          = SmartPhoneModel.first (SmartPhoneModel.variants db' self)) as Hfirst.
  { apply first_Permutation; [done|].
    apply unique_key_filter. by apply valid_db_unique_id. }
  assert (SmartPhoneModel.aggregate_Min_unit_price (SmartPhoneModel.variants db self)
          = SmartPhoneModel.aggregate_Min_unit_price (SmartPhoneModel.variants db' self))
    as Hmin.
  { unfold SmartPhoneModel.aggregate_Min_unit_price.
    apply Min_Permutation. by rewrite Hperm. }
  assert (exists_ (SmartPhoneModel.variants db self)
          = exists_ (SmartPhoneModel.variants db' self)) as Hexists.
  { destruct (SmartPhoneModel.variants db self) as [|v vs];
      destruct (SmartPhoneModel.variants db' self) as [|v' vs']; try done.
    - by apply Permutation.Permutation_nil in Hperm.
    - symmetry in Hperm. by apply Permutation.Permutation_nil in Hperm. }
  unfold SmartPhoneModel.get_price.
  by rewrite Hfirst, Hmin, Hexists.
Qed.

Lemma get_price_order_independent_sample :
  SmartPhoneModel.get_price reordered_db phone "/" = Ok (EUR 8000, phone_priced8).
Proof.
  rewrite <- (get_price_order_independent sample_db reordered_db phone "/"
                sample_db_valid).
  - reflexivity.
  - change (myshop_smartphonevariant sample_db)
      with [variant16; variant32; variant64; other_variant].
    change (myshop_smartphonevariant reordered_db)
      with (rev [variant16; variant32; variant64; other_variant]).
    apply Permutation.Permutation_rev.
Defined.

(** ** populate_from_cart_item: the outcomes *)

(** X9: for a cart item of a SmartPhoneModel, once the framework's inherited
    step has returned and left a valid database, [populate_from_cart_item]
    has two outcomes.  When the cart item's product code names a variant of
    the model, it returns the order item with that variant's unit price and
    every other field as the inherited step left it, the database being as
    that step left it.  When the product code names no variant of the model,
    it raises [CartItem.DoesNotExist]. *)
Theorem populate_from_cart_item_smartphone {Request : Type}
    (base : OrderItem.BaseOrderItem Request SmartPhoneModel.t)
    (db : DB) (self : OrderItem.t) (cart_item : CartItem.t SmartPhoneModel.t)
    (request : Request) (db1 : DB) (self1 : OrderItem.t) :
  OrderItem.super_populate_from_cart_item db self cart_item request = Ok (db1, self1) →
  valid_db db1 →
  (∀ v, v ∈ SmartPhoneModel.variants db1 (CartItem.product cart_item) →
        Some (SmartPhoneVariant.product_code v) = CartItem.product_code cart_item →
        OrderItem.populate_from_cart_item db self cart_item request
        = Ok (db1, OrderItem.set__unit_price self1
                     (amount (SmartPhoneVariant.unit_price v))))
  ∧ ((∀ v, v ∈ SmartPhoneModel.variants db1 (CartItem.product cart_item) →
           Some (SmartPhoneVariant.product_code v)
           ≠ CartItem.product_code cart_item) →
     OrderItem.populate_from_cart_item db self cart_item request
     = Raise (DoesNotExist CartItemClass
                (Cause (DoesNotExist SmartPhoneModelClass
                          (Cause (DoesNotExist SmartPhoneVariantClass
                                    (Message "matching query does not exist")))))))
  ∧ ((∃ v, v ∈ SmartPhoneModel.variants db1 (CartItem.product cart_item)
           ∧ Some (SmartPhoneVariant.product_code v)
             = CartItem.product_code cart_item)
     ∨ (∀ v, v ∈ SmartPhoneModel.variants db1 (CartItem.product cart_item) →
             Some (SmartPhoneVariant.product_code v)
             ≠ CartItem.product_code cart_item)).
Proof.
  intros Hsuper Hvalid.
  rewrite (populate_from_cart_item_after_super _ _ _ _ _ _ Hsuper).
  change (get_product_variant db1 (CartItem.product cart_item)
            {[ "product_code" := CartItem.product_code cart_item ]})
    with (SmartPhoneModel.get_product_variant db1 (CartItem.product cart_item)
            {[ "product_code" := CartItem.product_code cart_item ]}).
  split; [|split].
  - intros v Hv Hcode.
    rewrite (get_product_variant_found db1 _ _ v); [done | done | | done].
    rewrite lookup_singleton_eq. by rewrite Hcode.
  - intros Hnone. rewrite get_product_variant_missing; [done|].
    intros v Hv. rewrite lookup_singleton_eq. simpl. by apply Hnone.
  - destruct (decide (Exists (λ v, Some (SmartPhoneVariant.product_code v)
                                   = CartItem.product_code cart_item)
                        (SmartPhoneModel.variants db1 (CartItem.product cart_item))))
      as [Hsome | Hnone].
    + left. apply Exists_exists in Hsome as (v & Hv & Hcode). by exists v.
    + right. intros v Hv Hcode. apply Hnone. apply Exists_exists. by exists v.
Qed.

(** Two 32 GB phones are ordered at the variant's price; the cart item that
    names no variant is refused. *)
Lemma populate_from_cart_item_smartphone_sample :
  OrderItem.populate_from_cart_item (base := sample_base_order_item)
    sample_db order_item loaded_cart_item32 "/checkout"
  = Ok (sold32_db, order_item32)
  ∧ OrderItem.populate_from_cart_item (base := sample_base_order_item)
      sample_db order_item loaded_cart_item_mismatch "/checkout"
    = Raise (DoesNotExist CartItemClass
               (Cause (DoesNotExist SmartPhoneModelClass
                         (Cause (DoesNotExist SmartPhoneVariantClass
                                   (Message "matching query does not exist")))))).
Proof.
  split.
  - apply (proj1 (populate_from_cart_item_smartphone sample_base_order_item
                    sample_db order_item loaded_cart_item32 "/checkout" sold32_db
                    order_item32 super_populate32 sold32_db_valid)
             (SmartPhoneVariant.Build 2 1 "sp-32" (EUR 8000) 32 1)).
    + apply elem_of_cons. right. apply elem_of_cons. by left.
    + reflexivity.
  - apply (proj1 (proj2 (populate_from_cart_item_smartphone sample_base_order_item
                           sample_db order_item loaded_cart_item_mismatch "/checkout"
                           sold32_once_db order_item_mismatch_step
                           super_populate_mismatch sold32_once_db_valid))).
    apply mismatch_names_no_variant.
Defined.

Section populate_outcomes.
Context {Request P : Type} {base : OrderItem.BaseOrderItem Request P}
  {model : ProductModel P}.

(** X10: the exceptions that leave [populate_from_cart_item].  An exception
    of the framework's inherited step leaves it as it is.  After that step,
    a [KeyError] or [ObjectDoesNotExist] that the variant's resolution
    raises leaves it as the [CartItem.DoesNotExist] made from it, and any
    other exception of the resolution leaves it unchanged; these are the only
    exceptions that leave it, so no [KeyError] and no [ObjectDoesNotExist]
    other than [CartItem.DoesNotExist] comes out of the [try] block. *)
Theorem populate_from_cart_item_exceptions (db : DB) (self : OrderItem.t)
    (cart_item : CartItem.t P) (request : Request) :
  (∀ e, OrderItem.super_populate_from_cart_item db self cart_item request = Raise e →
        OrderItem.populate_from_cart_item db self cart_item request = Raise e)
  ∧ (∀ db1 self1,
       OrderItem.super_populate_from_cart_item db self cart_item request
       = Ok (db1, self1) →
       (∀ e', get_product_variant db1 (CartItem.product cart_item)
                {[ "product_code" := CartItem.product_code cart_item ]} = Raise e' →
              (is_KeyError e' = true ∨ is_ObjectDoesNotExist e' = true →
               OrderItem.populate_from_cart_item db self cart_item request
               = Raise (DoesNotExist CartItemClass (Cause e')))
              ∧ (is_KeyError e' = false → is_ObjectDoesNotExist e' = false →
                 OrderItem.populate_from_cart_item db self cart_item request
                 = Raise e'))
       ∧ (∀ e, OrderItem.populate_from_cart_item db self cart_item request = Raise e →
               ∃ e', get_product_variant db1 (CartItem.product cart_item)
                       {[ "product_code" := CartItem.product_code cart_item ]}
                     = Raise e'
                     ∧ (e = DoesNotExist CartItemClass (Cause e')
                        ∨ e = e' ∧ is_KeyError e = false
                          ∧ is_ObjectDoesNotExist e = false))).
Proof.
  split; [intros e; apply populate_from_cart_item_super_raises|].
  intros db1 self1 Hsuper.
  rewrite (populate_from_cart_item_after_super _ _ _ _ _ _ Hsuper).
  destruct (get_product_variant _ _ _) as [variant | e0]; [done|].
  split.
  - intros e' [= <-]. split.
    + intros Hcaught. apply orb_true_iff in Hcaught. by rewrite Hcaught.
    + intros Hkey Hmissing. by rewrite Hkey, Hmissing.
  - intros e. destruct (is_KeyError e0 || is_ObjectDoesNotExist e0) eqn:Hcaught.
    + intros [= <-]. exists e0. split; [done|]. by left.
    + intros [= <-]. exists e0. split; [done|]. right.
      by apply orb_false_iff in Hcaught as [? ?].
Qed.
End populate_outcomes.

Example resolution_mismatch :
  get_product_variant sold32_once_db (CartItem.product loaded_cart_item_mismatch)
    {[ "product_code" := CartItem.product_code loaded_cart_item_mismatch ]}
  = Raise (DoesNotExist SmartPhoneModelClass
             (Cause (DoesNotExist SmartPhoneVariantClass
                (Message "matching query does not exist")))).
Proof. vm_compute. reflexivity. Qed.

Lemma populate_from_cart_item_exceptions_sample :
  OrderItem.populate_from_cart_item (base := sample_base_order_item)
    sample_db order_item loaded_cart_item_mismatch "/checkout"
  = Raise (DoesNotExist CartItemClass
             (Cause (DoesNotExist SmartPhoneModelClass
                (Cause (DoesNotExist SmartPhoneVariantClass
                   (Message "matching query does not exist")))))).
Proof.
  apply (proj1 (proj1 (proj2 (populate_from_cart_item_exceptions
                                (base := sample_base_order_item)
                                sample_db order_item loaded_cart_item_mismatch
                                "/checkout")
                         sold32_once_db order_item_mismatch_step
                         super_populate_mismatch)
                  (DoesNotExist SmartPhoneModelClass
                     (Cause (DoesNotExist SmartPhoneVariantClass
                        (Message "matching query does not exist"))))
                  resolution_mismatch)).
  by right.
Defined.

(** * The choices of SmartCard *)

(** X11: the choices of [SmartCard.card_type].  For any lists of types and
    prefixes the comprehension yields the pairs whose two components are the
    same string, a prefix followed by a type.  With the lists of
    [models.py] it yields the eight choices the migration records, in that
    order; their values are pairwise distinct, and each fits the column's
    [max_length]. *)
Theorem card_type_choices_spec :
  (∀ types prefixes value label,
     (value, label) ∈ card_type_choices_of types prefixes
     ↔ label = value ∧ ∃ t s, t ∈ types ∧ s ∈ prefixes ∧ value = s +:+ t)
  ∧ SmartCard_card_type_choices = migration_card_type_choices
  ∧ NoDup (fst <$> SmartCard_card_type_choices)
  ∧ (∃ n, max_length_of SmartCard_model "card_type" = Some n
          ∧ Forall (λ choice, Z.of_nat (String.length choice.1) ≤ n)
              SmartCard_card_type_choices).
Proof.
  split; [|split; [|split]].
  - intros types prefixes value label. unfold card_type_choices_of. split.
    + intros Hin. apply list_elem_of_bind in Hin as (t & Hin & Ht).
      apply list_elem_of_bind in Hin as (s & Hin & Hs).
      apply list_elem_of_singleton in Hin as [= -> ->].
      split; [done|]. by exists t, s.
    + intros (-> & t & s & Ht & Hs & ->).
      apply list_elem_of_bind. exists t. split; [|done].
      apply list_elem_of_bind. exists s. split; [|done].
      by apply list_elem_of_singleton.
  - reflexivity.
  - apply (bool_decide_unpack _). vm_compute. exact I.
  - exists 15. split; [reflexivity|].
    apply (bool_decide_unpack _). vm_compute. exact I.
Qed.

(** X12: the choices of [SmartCard.speed].  For any list of speeds the
    comprehension yields, for each speed, its decimal numeral and that
    numeral followed by [" MB/s"].  With the list of [models.py] it yields
    the eight choices the migration records, in that order; their values are
    pairwise distinct, and each fits the column's [max_length]. *)
Theorem speed_choices_spec :
  (∀ speeds value label,
     (value, label) ∈ speed_choices_of speeds
     ↔ ∃ s, s ∈ speeds ∧ value = pretty s ∧ label = value +:+ " MB/s")
  ∧ (∀ speeds, NoDup speeds → NoDup (fst <$> speed_choices_of speeds))
  ∧ SmartCard_speed_choices = migration_speed_choices
  ∧ (∃ n, max_length_of SmartCard_model "speed" = Some n
          ∧ Forall (λ choice, Z.of_nat (String.length choice.1) ≤ n)
              SmartCard_speed_choices).
Proof.
  split; [|split; [|split]].
  - intros speeds value label. unfold speed_choices_of. split.
    + intros Hin. apply list_elem_of_bind in Hin as (s & Hin & Hs).
      apply list_elem_of_singleton in Hin as [= -> ->]. by exists s.
    + intros (s & Hs & -> & ->).
      apply list_elem_of_bind. exists s. split; [|done].
      by apply list_elem_of_singleton.
  - intros speeds Hnodup. unfold speed_choices_of.
    induction Hnodup as [|s rest Hnotin _ IH]; simpl; [constructor|].
    apply NoDup_cons. split; [|exact IH].
    intros Hin. apply Hnotin.
    apply list_elem_of_fmap in Hin as ([value label] & Hvalue & Hin).
    apply list_elem_of_bind in Hin as (s' & Hin & Hs').
    apply list_elem_of_singleton in Hin as [= -> ->].
    simpl in Hvalue. apply (inj pretty) in Hvalue. by subst.
  - reflexivity.
  - exists 8. split; [reflexivity|].
    apply (bool_decide_unpack _). vm_compute. exact I.
Qed.

Lemma speed_choices_spec_sample :
  NoDup (fst <$> speed_choices_of [4; 20; 30; 40; 48; 80; 95; 280]).
Proof.
  apply (proj1 (proj2 speed_choices_spec)).
  apply (bool_decide_unpack _). vm_compute. exact I.
Defined.

(** * The settings read from the environment *)

(** X13: sessions and caches.  The session engine is the Redis one exactly
    when [REDIS_HOST] is set to a non-empty string; then the sessions and
    the default cache use that host, and the cache middleware settings are
    defined.  When [REDIS_HOST] is unset or empty, sessions use the cached
    database engine, the caches are those declared, and the cache
    middleware settings stay undefined.  The [select2] cache is the declared
    one in every case. *)
Theorem session_and_cache_settings_spec (env : settings.environ) :
  settings.CACHES (settings.session_and_cache_settings env) !! "select2"
  = settings.CACHES_declared !! "select2"
  ∧ (settings.SESSION_ENGINE (settings.session_and_cache_settings env)
     = "redis_sessions.session"
     ↔ ∃ host, settings.getenv env "REDIS_HOST" = Some host ∧ host ≠ "")
  ∧ (∀ host, settings.getenv env "REDIS_HOST" = Some host → host ≠ "" →
       settings.SESSION_REDIS (settings.session_and_cache_settings env)
       = Some (settings.SessionRedis host 6379 0 "session-" 1)
       ∧ settings.CACHES (settings.session_and_cache_settings env) !! "default"
         = Some {[ "BACKEND" := "redis_cache.RedisCache";
                   "LOCATION" := "redis://" +:+ host +:+ ":6379/1" ]}
       ∧ settings.CACHE_MIDDLEWARE_ALIAS (settings.session_and_cache_settings env)
         = Some "default"
       ∧ settings.CACHE_MIDDLEWARE_SECONDS (settings.session_and_cache_settings env)
         = Some 3600)
  ∧ (settings.getenv env "REDIS_HOST" = None
     ∨ settings.getenv env "REDIS_HOST" = Some "" →
     settings.session_and_cache_settings env
     = settings.SessionAndCache "django.contrib.sessions.backends.cached_db" None
         settings.CACHES_declared None None).
Proof.
  unfold settings.session_and_cache_settings.
  destruct (settings.getenv env "REDIS_HOST") as [[|c host]|] eqn:Henv; simpl.
  - split; [done|]. split; [|split].
    + split; [discriminate|]. by intros (host & [= <-] & ?).
    + by intros host [= <-].
    + done.
  - split; [by rewrite lookup_insert_ne|]. split; [|split].
    + split; [|done]. intros _. by eexists.
    + intros host' [= <-] _. by rewrite lookup_insert_eq.
    + by intros [? | ?].
  - split; [done|]. split; [|split].
    + split; [discriminate|]. by intros (host & ? & _).
    + by intros host ?.
    + done.
Qed.

Lemma session_and_cache_settings_sample :
  settings.SESSION_REDIS (settings.session_and_cache_settings sample_environ)
  = Some (settings.SessionRedis "cache.local" 6379 0 "session-" 1).
Proof.
  apply (proj1 (proj1 (proj2 (proj2 (session_and_cache_settings_spec sample_environ)))
                  "cache.local" ltac:(vm_compute; reflexivity) ltac:(discriminate))).
Defined.

(** X14: the mail settings.  [EMAIL_USE_TLS] is false only when
    [DJANGO_EMAIL_USE_TLS] is set to the empty string: unset it is true, and
    so it is for every other value, "0" and "false" included.  [EMAIL_PORT]
    is the number 25 only when [DJANGO_EMAIL_PORT] is unset; a value from
    the environment is kept as the string it is. *)
Theorem mail_settings_spec (env : settings.environ) :
  (settings.EMAIL_USE_TLS env = false
   ↔ settings.getenv env "DJANGO_EMAIL_USE_TLS" = Some "")
  ∧ (∀ n, settings.EMAIL_PORT env = settings.Int n
          ↔ n = 25 ∧ settings.getenv env "DJANGO_EMAIL_PORT" = None)
  ∧ (∀ value, settings.EMAIL_PORT env = settings.Str value
              ↔ settings.getenv env "DJANGO_EMAIL_PORT" = Some value).
Proof.
  unfold settings.EMAIL_USE_TLS, settings.EMAIL_PORT. split; [|split].
  - destruct (settings.getenv env "DJANGO_EMAIL_USE_TLS") as [[|c value]|]; simpl;
      split; congruence.
  - intros n. destruct (settings.getenv env "DJANGO_EMAIL_PORT") as [value|]; split.
    + discriminate.
    + by intros [_ ?].
    + by intros [= <-].
    + by intros [-> _].
  - intros value. destruct (settings.getenv env "DJANGO_EMAIL_PORT"); split;
      congruence.
Qed.

(** Asking for no TLS with "0" leaves TLS on. *)
Example EMAIL_USE_TLS_zero : settings.EMAIL_USE_TLS sample_environ = true.
Proof. reflexivity. Qed.

(** ** Paths *)

(** [endswith_sep] holds of the strings that end in the separator. *)
Lemma endswith_sep_iff (w : string) :
  settings.endswith_sep w = true ↔ ∃ s, w = s +:+ "/".
Proof.
  split.
  - induction w as [|c rest IH]; simpl; [discriminate|].
    destruct rest as [|c' rest'].
    + intros Hc. apply bool_decide_eq_true in Hc. subst c. by exists "".
    + intros Hrest. destruct (IH Hrest) as [s Hs].
      exists (String c s).
      change (String c s +:+ "/") with (String c (s +:+ "/")). by rewrite <- Hs.
  - intros [s ->]. induction s as [|c s IH]; [done|].
    change (String c s +:+ "/") with (String c (s +:+ "/")).
    destruct (s +:+ "/") as [|c' rest] eqn:Happ; [by destruct s|].
    exact IH.
Qed.

(** A relative [b] is appended to [a], with a separator between the two
    unless [a] is empty or ends in one. *)
Lemma path_join_relative (a b : string) :
  settings.startswith_sep b = false →
  ((a = "" ∨ ∃ s, a = s +:+ "/") → settings.path_join a b = a +:+ b)
  ∧ (a ≠ "" → (∀ s, a ≠ s +:+ "/") → settings.path_join a b = a +:+ "/" +:+ b).
Proof.
  intros Hrel. unfold settings.path_join. rewrite Hrel. split.
  - intros [-> | Hends]; [done|].
    apply endswith_sep_iff in Hends. rewrite Hends.
    by destruct (negb (settings.truth a)).
  - intros Hne Hends.
    destruct (settings.endswith_sep a) eqn:Hsep.
    + apply endswith_sep_iff in Hsep as [s Hs]. by destruct (Hends s).
    + by destruct a.
Qed.

(** X15: where the working files are kept.  [WORK_DIR] is the value of
    [DJANGO_WORKDIR] when that is set.  The database file, the media root
    and the fixtures directory are [WORK_DIR] followed by their name: with
    nothing between the two when [WORK_DIR] is empty or ends in a separator,
    and with exactly one separator between them otherwise.  [STATIC_ROOT] is
    the value of [DJANGO_STATIC_ROOT] when that is set, wherever it points,
    and lies in [WORK_DIR] in the same way otherwise. *)
Theorem work_dir_paths (BASE_DIR : string) (abspath : string → string)
    (env : settings.environ) :
  (∀ w, settings.getenv env "DJANGO_WORKDIR" = Some w →
        settings.WORK_DIR BASE_DIR abspath env = w)
  ∧ (settings.getenv env "DJANGO_WORKDIR" = None →
     settings.WORK_DIR BASE_DIR abspath env
     = abspath (settings.path_join (abspath (settings.path_join BASE_DIR ".."))
                  "workdir"))
  ∧ (∀ path name,
       (path, name) ∈ ([ (settings.DATABASES_default_NAME BASE_DIR abspath env,
                          "db.sqlite3");
                         (settings.MEDIA_ROOT BASE_DIR abspath env, "media") ]
                       ++ ((λ dir, (dir, "fixtures"))
                             <$> settings.FIXTURE_DIRS BASE_DIR abspath env))%list →
       ((settings.WORK_DIR BASE_DIR abspath env = ""
         ∨ ∃ s, settings.WORK_DIR BASE_DIR abspath env = s +:+ "/") →
        path = settings.WORK_DIR BASE_DIR abspath env +:+ name)
       ∧ (settings.WORK_DIR BASE_DIR abspath env ≠ "" →
          (∀ s, settings.WORK_DIR BASE_DIR abspath env ≠ s +:+ "/") →
          path = settings.WORK_DIR BASE_DIR abspath env +:+ "/" +:+ name))
  ∧ (∀ v, settings.getenv env "DJANGO_STATIC_ROOT" = Some v →
          settings.STATIC_ROOT BASE_DIR abspath env = v)
  ∧ (settings.getenv env "DJANGO_STATIC_ROOT" = None →
     ((settings.WORK_DIR BASE_DIR abspath env = ""
       ∨ ∃ s, settings.WORK_DIR BASE_DIR abspath env = s +:+ "/") →
      settings.STATIC_ROOT BASE_DIR abspath env
      = settings.WORK_DIR BASE_DIR abspath env +:+ "static")
     ∧ (settings.WORK_DIR BASE_DIR abspath env ≠ "" →
        (∀ s, settings.WORK_DIR BASE_DIR abspath env ≠ s +:+ "/") →
        settings.STATIC_ROOT BASE_DIR abspath env
        = settings.WORK_DIR BASE_DIR abspath env +:+ "/" +:+ "static")).
Proof.
  split; [|split; [|split; [|split]]].
  - intros w Hw. unfold settings.WORK_DIR. by rewrite Hw.
  - intros Hunset. unfold settings.WORK_DIR. by rewrite Hunset.
  - intros path name Hin. simpl in Hin.
    apply elem_of_cons in Hin as [[= -> ->] | Hin];
      [by apply path_join_relative|].
    apply elem_of_cons in Hin as [[= -> ->] | Hin];
      [by apply path_join_relative|].
    apply elem_of_cons in Hin as [[= -> ->] | Hin];
      [by apply path_join_relative|].
    by apply not_elem_of_nil in Hin.
  - intros v Hv. unfold settings.STATIC_ROOT. by rewrite Hv.
  - intros Hunset. unfold settings.STATIC_ROOT. rewrite Hunset. simpl.
    by apply path_join_relative.
Qed.

(** With [DJANGO_WORKDIR=/srv/work] the media are kept in
    [/srv/work/media]. *)
Lemma work_dir_paths_sample :
  settings.WORK_DIR "/opt/shop/myshop" (λ path, path) sample_environ = "/srv/work"
  ∧ settings.MEDIA_ROOT "/opt/shop/myshop" (λ path, path) sample_environ
    = "/srv/work/media".
Proof.
  pose proof (work_dir_paths "/opt/shop/myshop" (λ path, path) sample_environ)
    as (Hset & _ & Hfiles & _).
  assert (settings.WORK_DIR "/opt/shop/myshop" (λ path, path) sample_environ
          = "/srv/work") as Hwork by (apply Hset; vm_compute; reflexivity).
  split; [exact Hwork|].
  destruct (Hfiles (settings.MEDIA_ROOT "/opt/shop/myshop" (λ path, path)
                      sample_environ) "media") as [_ Hsep].
  - apply elem_of_cons. right. apply elem_of_cons. by left.
  - rewrite Hsep, Hwork; [reflexivity | by rewrite Hwork |].
    rewrite Hwork. intros s Hs.
    assert (settings.endswith_sep "/srv/work" = true) as Hends
      by (apply endswith_sep_iff; by exists s).
    discriminate Hends.
Defined.
